(** * keepalived: BFD child process handling (keepalived/bfd/bfd_daemon.c)

    A shallow embedding of the BFD daemon's start, stop, reload and respawn
    sequences.  The C functions call into many collaborators (scheduler,
    signal layer, pidfile, logger, allocator of the BFD data); every such
    call is recorded as an [event], together with the process state right
    after it, so that the order of the calls and the state at every point
    of a sequence can be stated and proved. *)

From Stdlib Require Import ZArith List String Ascii Bool Lia DecimalString.
Import ListNotations.

Local Open Scope string_scope.
Local Open Scope list_scope.
Local Open Scope Z_scope.

(** ** C-level types *)

(** Heap addresses; a C pointer is an [option ptr], [None] being NULL. *)
Definition ptr := Z.
Definition pid_t := Z.

Inductive signal := SIGHUP | SIGINT | SIGTERM | SIGPIPE | SIGCHLD.

Definition signal_eqb (a b : signal) : bool :=
  match a, b with
  | SIGHUP, SIGHUP | SIGINT, SIGINT | SIGTERM, SIGTERM
  | SIGPIPE, SIGPIPE | SIGCHLD, SIGCHLD => true
  | _, _ => false
  end.

(** syslog priorities used by this file. *)
Inductive log_level := LOG_ALERT | LOG_ERR | LOG_WARNING | LOG_INFO.

(** <syslog.h> option and facility values (glibc). *)
Definition LOG_PID : Z := 1.
Definition LOG_CONS : Z := 2.
Definition LOG_DAEMON : Z := Z.shiftl 3 3.
Definition LOG_LOCAL2 : Z := Z.shiftl 18 3.

Definition EXIT_SUCCESS : Z := 0.

(** <fcntl.h> (Linux). *)
Definition O_NONBLOCK : Z := 2048.

(** The thread types of scheduler.h (the header is not among the sources;
    this file only ever names [THREAD_CHILD_TIMEOUT]). *)
Inductive thread_type :=
| THREAD_READ | THREAD_WRITE | THREAD_TIMER | THREAD_EVENT | THREAD_CHILD
| THREAD_READY | THREAD_UNUSED | THREAD_WRITE_TIMEOUT | THREAD_READ_TIMEOUT
| THREAD_CHILD_TIMEOUT | THREAD_TERMINATE | THREAD_READY_FD.

Definition thread_type_eqb (a b : thread_type) : bool :=
  match a, b with
  | THREAD_READ, THREAD_READ | THREAD_WRITE, THREAD_WRITE
  | THREAD_TIMER, THREAD_TIMER | THREAD_EVENT, THREAD_EVENT
  | THREAD_CHILD, THREAD_CHILD | THREAD_READY, THREAD_READY
  | THREAD_UNUSED, THREAD_UNUSED
  | THREAD_WRITE_TIMEOUT, THREAD_WRITE_TIMEOUT
  | THREAD_READ_TIMEOUT, THREAD_READ_TIMEOUT
  | THREAD_CHILD_TIMEOUT, THREAD_CHILD_TIMEOUT
  | THREAD_TERMINATE, THREAD_TERMINATE
  | THREAD_READY_FD, THREAD_READY_FD => true
  | _, _ => false
  end.

(** [thread_t], as far as this file reads it: [thread->type] and
    [THREAD_CHILD_PID(thread)]. *)
Record thread_t := { type : thread_type; THREAD_CHILD_PID : pid_t }.

(** The functions of this file that are handed to the scheduler
    ([thread_add_event], [thread_add_child]) or to the signal layer
    ([signal_set]) as function pointers. *)
Inductive thread_fn :=
| fn_reload_bfd_thread | fn_bfd_respawn_thread | fn_bfd_dispatcher_init.

Inductive sig_handler :=
| fn_sighup_bfd | fn_sigend_bfd | fn_thread_child_handler.

Inductive prog_type_t :=
| PROG_TYPE_PARENT | PROG_TYPE_VRRP | PROG_TYPE_CHECKER | PROG_TYPE_BFD.

(** ** Build configuration and header constants

    Preprocessor switches of the file, and the constants it takes from
    main.h and bitops.h, whose values the file does not fix. *)
Record config := {
  _DEBUG_ : bool;
  BFD_SCHED_RT : bool;
  HAVE_DECL_CLONE_NEWNET : bool;
  _MEM_CHECK_ : bool;
  _MEM_CHECK_LOG_ : bool;
  DONT_RESPAWN_BIT : Z;
  DUMP_CONF_BIT : Z;
  NO_SYSLOG_BIT : Z;
  LOG_CONSOLE_BIT : Z;
  KEEPALIVED_EXIT_FATAL : Z;
  RESPAWN_TIMER : Z;
  PROG_BFD : string;
  PROG_CHECK : string
}.

(** What the operating system and the allocating collaborators answer
    during one run of a sequence. *)
Record oracle := {
  fork_ret : pid_t;
  getpid_ret : pid_t;
  pidfile_write_ret : bool;              (* pidfile_write() != 0 *)
  alloc_bfd_data_ok : bool;              (* alloc_bfd_data() != NULL *)
  make_syslog_ident_ret : option string; (* NULL on failure *)
  sched_get_priority_max_ret : Z;
  sched_setscheduler_ret : Z;
  chdir_ret : Z;
  pipe_ret : option (Z * Z);             (* None: pipe() == -1 *)
  fcntl_getfl : Z -> Z;
  timer_now_ret : Z;
  timer_sub_now_ret : Z -> Z             (* timer_tol(timer_sub_now(t)) *)
}.

(** ** Process state *)

(** Global variables written by this file. *)
Record globals := {
  master : option ptr;             (* thread_master_t *master *)
  global_data : option ptr;        (* data_t *global_data *)
  bfd_data : option ptr;           (* bfd_data_t *bfd_data *)
  old_bfd_data : option ptr;
  reload : bool;                   (* SET_RELOAD / UNSET_RELOAD *)
  bfd_child : pid_t;
  prog_type : prog_type_t;
  bfd_syslog_ident : option string;
  bfd_event_pipe : Z * Z
}.

(** Global variables this file only reads. *)
Record settings := {
  debug : Z;                       (* unsigned long debug *)
  log_file_name : option string;
  instance_name : option string;
  network_namespace : option string;
  log_facility : Z;
  conf_file : string;
  bfd_pidfile : string
}.

Inductive disposition :=
| Handler (h : sig_handler) (v : option ptr)
| Ignored.

(** State kept by the collaborators: the heap blocks that are live, the
    packet buffer of bfd_data.c, the signal routing table of signals.c and
    the content of the pidfile. *)
Record world := {
  heap : list ptr;
  brk : ptr;                        (* next address handed out *)
  bfd_buffer : option ptr;
  sigtab : list (signal * disposition);
  pidfile : option pid_t            (* None: no file at bfd_pidfile *)
}.

Record proc := { g : globals; cf : settings; w : world }.

(** Assignments to the globals. *)
Definition set_master v (st : proc) : proc :=
  {| g := {| master := v; global_data := global_data (g st);
             bfd_data := bfd_data (g st); old_bfd_data := old_bfd_data (g st);
             reload := reload (g st); bfd_child := bfd_child (g st);
             prog_type := prog_type (g st);
             bfd_syslog_ident := bfd_syslog_ident (g st);
             bfd_event_pipe := bfd_event_pipe (g st) |};
     cf := cf st; w := w st |}.

Definition set_global_data v (st : proc) : proc :=
  {| g := {| master := master (g st); global_data := v;
             bfd_data := bfd_data (g st); old_bfd_data := old_bfd_data (g st);
             reload := reload (g st); bfd_child := bfd_child (g st);
             prog_type := prog_type (g st);
             bfd_syslog_ident := bfd_syslog_ident (g st);
             bfd_event_pipe := bfd_event_pipe (g st) |};
     cf := cf st; w := w st |}.

Definition set_bfd_data v (st : proc) : proc :=
  {| g := {| master := master (g st); global_data := global_data (g st);
             bfd_data := v; old_bfd_data := old_bfd_data (g st);
             reload := reload (g st); bfd_child := bfd_child (g st);
             prog_type := prog_type (g st);
             bfd_syslog_ident := bfd_syslog_ident (g st);
             bfd_event_pipe := bfd_event_pipe (g st) |};
     cf := cf st; w := w st |}.

Definition set_old_bfd_data v (st : proc) : proc :=
  {| g := {| master := master (g st); global_data := global_data (g st);
             bfd_data := bfd_data (g st); old_bfd_data := v;
             reload := reload (g st); bfd_child := bfd_child (g st);
             prog_type := prog_type (g st);
             bfd_syslog_ident := bfd_syslog_ident (g st);
             bfd_event_pipe := bfd_event_pipe (g st) |};
     cf := cf st; w := w st |}.

Definition set_reload v (st : proc) : proc :=
  {| g := {| master := master (g st); global_data := global_data (g st);
             bfd_data := bfd_data (g st); old_bfd_data := old_bfd_data (g st);
             reload := v; bfd_child := bfd_child (g st);
             prog_type := prog_type (g st);
             bfd_syslog_ident := bfd_syslog_ident (g st);
             bfd_event_pipe := bfd_event_pipe (g st) |};
     cf := cf st; w := w st |}.

Definition set_bfd_child v (st : proc) : proc :=
  {| g := {| master := master (g st); global_data := global_data (g st);
             bfd_data := bfd_data (g st); old_bfd_data := old_bfd_data (g st);
             reload := reload (g st); bfd_child := v;
             prog_type := prog_type (g st);
             bfd_syslog_ident := bfd_syslog_ident (g st);
             bfd_event_pipe := bfd_event_pipe (g st) |};
     cf := cf st; w := w st |}.

Definition set_prog_type v (st : proc) : proc :=
  {| g := {| master := master (g st); global_data := global_data (g st);
             bfd_data := bfd_data (g st); old_bfd_data := old_bfd_data (g st);
             reload := reload (g st); bfd_child := bfd_child (g st);
             prog_type := v;
             bfd_syslog_ident := bfd_syslog_ident (g st);
             bfd_event_pipe := bfd_event_pipe (g st) |};
     cf := cf st; w := w st |}.

Definition set_bfd_syslog_ident v (st : proc) : proc :=
  {| g := {| master := master (g st); global_data := global_data (g st);
             bfd_data := bfd_data (g st); old_bfd_data := old_bfd_data (g st);
             reload := reload (g st); bfd_child := bfd_child (g st);
             prog_type := prog_type (g st);
             bfd_syslog_ident := v;
             bfd_event_pipe := bfd_event_pipe (g st) |};
     cf := cf st; w := w st |}.

Definition set_bfd_event_pipe v (st : proc) : proc :=
  {| g := {| master := master (g st); global_data := global_data (g st);
             bfd_data := bfd_data (g st); old_bfd_data := old_bfd_data (g st);
             reload := reload (g st); bfd_child := bfd_child (g st);
             prog_type := prog_type (g st);
             bfd_syslog_ident := bfd_syslog_ident (g st);
             bfd_event_pipe := v |};
     cf := cf st; w := w st |}.

(** Updates of the collaborators' state. *)
Definition set_world (f : world -> world) (st : proc) : proc :=
  {| g := g st; cf := cf st; w := f (w st) |}.

Definition with_heap (h : list ptr) (x : world) : world :=
  {| heap := h; brk := brk x; bfd_buffer := bfd_buffer x;
     sigtab := sigtab x; pidfile := pidfile x |}.

Definition with_bfd_buffer (b : option ptr) (x : world) : world :=
  {| heap := heap x; brk := brk x; bfd_buffer := b;
     sigtab := sigtab x; pidfile := pidfile x |}.

Definition with_sigtab (t : list (signal * disposition)) (x : world) : world :=
  {| heap := heap x; brk := brk x; bfd_buffer := bfd_buffer x;
     sigtab := t; pidfile := pidfile x |}.

Definition with_pidfile (p : option pid_t) (x : world) : world :=
  {| heap := heap x; brk := brk x; bfd_buffer := bfd_buffer x;
     sigtab := sigtab x; pidfile := p |}.

(** A fresh block: the address is [brk], which then moves on. *)
Definition heap_alloc (x : world) : world :=
  {| heap := brk x :: heap x; brk := brk x + 1; bfd_buffer := bfd_buffer x;
     sigtab := sigtab x; pidfile := pidfile x |}.

(** Releasing NULL releases nothing. *)
Definition heap_free (p : option ptr) (x : world) : world :=
  with_heap (match p with
             | Some a => filter (fun b => negb (b =? a)) (heap x)
             | None => heap x
             end) x.

Definition live (p : option ptr) (st : proc) : bool :=
  match p with
  | Some a => existsb (fun b => a =? b) (heap (w st))
  | None => false
  end.

Definition sig_lookup (s : signal) (t : list (signal * disposition))
  : option disposition :=
  match find (fun e => signal_eqb s (fst e)) t with
  | Some e => Some (snd e)
  | None => None
  end.

Definition sig_install (s : signal) (d : disposition)
  (t : list (signal * disposition)) : list (signal * disposition) :=
  (s, d) :: filter (fun e => negb (signal_eqb s (fst e))) t.

(** [__test_bit(idx, &debug)] of bitops.h. *)
Definition __test_bit (idx : Z) (bits : Z) : bool := Z.testbit bits idx.

Definition is_some {A} (o : option A) : bool :=
  match o with Some _ => true | None => false end.

(** ** Calls into the collaborators *)

Inductive event :=
| e_signal_handler_init
| e_signal_handler_destroy
| e_signal_set (sig : signal) (h : sig_handler) (v : option ptr)
| e_signal_ignore (sig : signal)
| e_raise (sig : signal)
| e_pidfile_write (path : string) (pid : pid_t) (ok : bool)
| e_pidfile_rm (path : string)
| e_alloc_global_data (p : ptr)
| e_free_global_data (p : option ptr)
| e_alloc_bfd_data (p : option ptr)
| e_free_bfd_data (p : option ptr)
| e_alloc_bfd_buffer (p : ptr)
| e_free_bfd_buffer (p : option ptr)
| e_bfd_dispatcher_release (p : option ptr)
| e_init_data (conf : string)
| e_bfd_complete_init
| e_dump_bfd_data (p : option ptr)
| e_thread_make_master (m : ptr)
| e_thread_destroy_master (m : option ptr)
| e_thread_add_event (m : option ptr) (f : thread_fn) (arg : option ptr)
| e_thread_add_terminate_event (m : option ptr)
| e_thread_add_child (m : option ptr) (f : thread_fn) (pid : pid_t) (timer : Z)
| e_launch_scheduler
| e_log_message (lvl : log_level) (fmt : string) (args : list Z)
| e_openlog (ident : string) (option facility : Z)
| e_closelog
| e_open_log_file (name : string) (prog : string)
    (ns : option string) (inst : option string)
| e_flush_log_file
| e_close_log_file
| e_FREE_PTR (p : option string)
| e_free (p : option string)
| e_keepalived_free_final (banner : string)
| e_mem_log_init (prog : string) (banner : string)
| e_free_parent_mallocs_startup (am_child : bool)
| e_close_std_fd
| e_srand
| e_timer_now (t : Z)
| e_SET_RELOAD
| e_UNSET_RELOAD
| e_fork (ret : pid_t)
| e_getpid (ret : pid_t)
| e_prctl_PR_SET_PDEATHSIG (sig : signal)
| e_set_child_finder_name
| e_set_child_finder
| e_make_syslog_ident (prog : string) (ret : option string)
| e_sched_get_priority_max (ret : Z)
| e_sched_setscheduler (pid : pid_t) (prio : Z) (ret : Z)
| e_chdir (path : string) (ret : Z)
| e_umask (mask : Z)
| e_pipe (ret : option (Z * Z))
| e_fcntl_getfl (fd : Z) (ret : Z)
| e_fcntl_setfl (fd : Z) (flags : Z)
| e_stop_keepalived
| e_start_bfd_child                 (* entry into start_bfd_child *)
| e_exit (status : Z).

(** ** The monad of the embedding

    A computation runs from a process state and ends in one of three ways:
    it falls through to the next statement, it leaves the enclosing C
    function by [return], or it leaves the process by [exit].  Every
    outcome carries the final state and the history the computation added:
    one entry per call, with the state right after the call. *)

Definition hist := list (event * proc).

Inductive res (R A : Type) : Type :=
| Next (a : A) (st : proc) (tr : hist)
| Returned (v : R) (st : proc) (tr : hist)
| Exited (status : Z) (st : proc) (tr : hist).
Arguments Next {R A} a st tr.
Arguments Returned {R A} v st tr.
Arguments Exited {R A} status st tr.

Definition M (R A : Type) : Type := proc -> res R A.

Definition trace {R A} (r : res R A) : hist :=
  match r with Next _ _ t | Returned _ _ t | Exited _ _ t => t end.

Definition final {R A} (r : res R A) : proc :=
  match r with Next _ s _ | Returned _ s _ | Exited _ s _ => s end.

Definition events {R A} (r : res R A) : list event := map fst (trace r).

Definition exit_status {R A} (r : res R A) : option Z :=
  match r with Exited s _ _ => Some s | _ => None end.

Definition after {R A} (t : hist) (r : res R A) : res R A :=
  match r with
  | Next a st t' => Next a st (t ++ t')
  | Returned v st t' => Returned v st (t ++ t')
  | Exited s st t' => Exited s st (t ++ t')
  end.

Definition ret {R A} (a : A) : M R A := fun st => Next a st [].

Definition bind {R A B} (m : M R A) (f : A -> M R B) : M R B :=
  fun st =>
    match m st with
    | Next a st1 t1 => after t1 (f a st1)
    | Returned v st1 t1 => Returned v st1 t1
    | Exited s st1 t1 => Exited s st1 t1
    end.

(** [return v;] *)
Definition return_ {R A} (v : R) : M R A := fun st => Returned v st [].

(** [exit(status);] *)
Definition exit {R A} (status : Z) : M R A :=
  fun st => Exited status st [(e_exit status, st)].

(** A call of a function of this file: its [return] ends the callee only. *)
Definition call {R R'} (body : M R' R') : M R R' :=
  fun st =>
    match body st with
    | Next a st1 t => Next a st1 t
    | Returned v st1 t => Next v st1 t
    | Exited s st1 t => Exited s st1 t
    end.

(** The state stays as it is. *)
Abbreviation keep := (fun st : proc => st).

(** A call of a collaborator: the state changes as [upd] says and the call
    is entered in the history with the state it leaves. *)
Definition ext {R} (e : event) (upd : proc -> proc) : M R unit :=
  fun st => let st' := upd st in Next tt st' [(e, st')].

Definition ext_ret {R A} (a : A) (e : event) (upd : proc -> proc) : M R A :=
  fun st => let st' := upd st in Next a st' [(e, st')].

(** Reading and assigning globals. *)
Definition gv {R X} (f : globals -> X) : M R X := fun st => Next (f (g st)) st [].
Definition sv {R X} (f : settings -> X) : M R X := fun st => Next (f (cf st)) st [].
Definition assign {R} (upd : proc -> proc) : M R unit := fun st => Next tt (upd st) [].

(** [if (c) { body }] *)
Definition when {R} (c : bool) (body : M R unit) : M R unit :=
  if c then body else ret tt.

Declare Scope daemon_scope.
Delimit Scope daemon_scope with daemon.
Notation "x <- m ;; k" := (bind m (fun x => k))
  (at level 61, m at next level, right associativity) : daemon_scope.
Notation "m ;; k" := (bind m (fun _ => k))
  (at level 61, right associativity) : daemon_scope.
(** [f @@ x]: call [f] on the current value of [x]. *)
Notation "f @@ x" := (bind x f) (at level 60, no associativity) : daemon_scope.
(** [x ::= m]: assign the result of [m] through the setter [x]. *)
Notation "x ::= m" := (bind m (fun v => assign (x v)))
  (at level 60, no associativity) : daemon_scope.
Local Open Scope daemon_scope.

Section Collaborators.
Context {R : Type}.

(** Modelled from the spec: the signal layer (signals.c is not among the
    sources).  "Unregister signal routing" empties the routing table;
    registering a handler or ignoring a signal sets the entry of that
    signal; initialising the layer registers nothing and unregisters
    nothing. *)
Definition signal_handler_init : M R unit :=
  ext e_signal_handler_init keep.
Definition signal_handler_destroy : M R unit :=
  ext e_signal_handler_destroy (set_world (with_sigtab [])).
Definition signal_set (sig : signal) (h : sig_handler) (v : option ptr)
  : M R unit :=
  ext (e_signal_set sig h v)
      (set_world (fun x => with_sigtab (sig_install sig (Handler h v) (sigtab x)) x)).
Definition signal_ignore (sig : signal) : M R unit :=
  ext (e_signal_ignore sig)
      (set_world (fun x => with_sigtab (sig_install sig Ignored (sigtab x)) x)).
Definition raise (sig : signal) : M R unit := ext (e_raise sig) keep.

(** Modelled from the spec: the pidfile collaborator (pidfile.c is not
    among the sources), "write(path, pid) -> bool, remove(path)". *)
Definition pidfile_write (ok : bool) (path : string) (pid : pid_t) : M R bool :=
  ext_ret ok (e_pidfile_write path pid ok)
    (set_world (fun x => with_pidfile (if ok then Some pid else pidfile x) x)).
Definition pidfile_rm (path : string) : M R unit :=
  ext (e_pidfile_rm path) (set_world (with_pidfile None)).

(** Modelled from the spec: allocation and release of the runtime state
    (global_data.c, bfd_data.c and scheduler.c are not among the
    sources).  An allocation hands out a fresh live block; a release
    ends the life of the block it is given and leaves the pointer
    variable as it is. *)
Definition alloc_global_data : M R (option ptr) :=
  fun st => ext_ret (Some (brk (w st))) (e_alloc_global_data (brk (w st)))
              (set_world heap_alloc) st.
Definition free_global_data (p : option ptr) : M R unit :=
  ext (e_free_global_data p) (set_world (heap_free p)).
Definition alloc_bfd_data (ok : bool) : M R (option ptr) :=
  fun st =>
    if ok then ext_ret (Some (brk (w st))) (e_alloc_bfd_data (Some (brk (w st))))
                 (set_world heap_alloc) st
    else ext_ret None (e_alloc_bfd_data None) keep st.
Definition free_bfd_data (p : option ptr) : M R unit :=
  ext (e_free_bfd_data p) (set_world (heap_free p)).
Definition alloc_bfd_buffer : M R unit :=
  fun st => ext (e_alloc_bfd_buffer (brk (w st)))
              (set_world (fun x => with_bfd_buffer (Some (brk x)) (heap_alloc x))) st.
Definition free_bfd_buffer : M R unit :=
  fun st => ext (e_free_bfd_buffer (bfd_buffer (w st)))
              (set_world (fun x => with_bfd_buffer None (heap_free (bfd_buffer x) x))) st.
Definition thread_make_master : M R (option ptr) :=
  fun st => ext_ret (Some (brk (w st))) (e_thread_make_master (brk (w st)))
              (set_world heap_alloc) st.
Definition thread_destroy_master (m : option ptr) : M R unit :=
  ext (e_thread_destroy_master m) (set_world (heap_free m)).

(** The remaining collaborators leave the state of this model alone. *)
Definition bfd_dispatcher_release (p : option ptr) : M R unit :=
  ext (e_bfd_dispatcher_release p) keep.
Definition init_data (conf : string) : M R unit := ext (e_init_data conf) keep.
Definition bfd_complete_init : M R unit := ext e_bfd_complete_init keep.
Definition dump_bfd_data (p : option ptr) : M R unit := ext (e_dump_bfd_data p) keep.
Definition thread_add_event (f : thread_fn) (arg : option ptr) (m : option ptr)
  : M R unit := ext (e_thread_add_event m f arg) keep.
Definition thread_add_terminate_event (m : option ptr) : M R unit :=
  ext (e_thread_add_terminate_event m) keep.
Definition thread_add_child (f : thread_fn) (pid : pid_t) (timer : Z)
  (m : option ptr) : M R unit := ext (e_thread_add_child m f pid timer) keep.
(** [launch_scheduler] returns when the run loop was told to terminate.
    The threads the run loop executes meanwhile are sequences of their own
    ([reload_bfd_thread] is one); they are not part of this call. *)
Definition launch_scheduler : M R unit := ext e_launch_scheduler keep.
Definition log_message (lvl : log_level) (fmt : string) (args : list Z)
  : M R unit := ext (e_log_message lvl fmt args) keep.
Definition openlog (ident : string) (option facility : Z) : M R unit :=
  ext (e_openlog ident option facility) keep.
Definition closelog : M R unit := ext e_closelog keep.
Definition open_log_file (name : option string) (prog : string)
  (ns inst : option string) : M R unit :=
  ext (e_open_log_file (match name with Some s => s | None => "" end) prog ns inst) keep.
Definition flush_log_file : M R unit := ext e_flush_log_file keep.
Definition close_log_file : M R unit := ext e_close_log_file keep.
(** [FREE_PTR] is a macro of memory.h; its use is entered as a call. *)
Definition FREE_PTR (p : option string) : M R unit := ext (e_FREE_PTR p) keep.
Definition free (p : option string) : M R unit := ext (e_free p) keep.
Definition keepalived_free_final (banner : string) : M R unit :=
  ext (e_keepalived_free_final banner) keep.
Definition mem_log_init (prog banner : string) : M R unit :=
  ext (e_mem_log_init prog banner) keep.
Definition free_parent_mallocs_startup (am_child : bool) : M R unit :=
  ext (e_free_parent_mallocs_startup am_child) keep.
Definition close_std_fd : M R unit := ext e_close_std_fd keep.
Definition srand_time : M R unit := ext e_srand keep.
Definition timer_now (t : Z) : M R Z := ext_ret t (e_timer_now t) keep.
Definition fork (r : pid_t) : M R pid_t := ext_ret r (e_fork r) keep.
Definition getpid (r : pid_t) : M R pid_t := ext_ret r (e_getpid r) keep.
Definition prctl_PR_SET_PDEATHSIG (sig : signal) : M R unit :=
  ext (e_prctl_PR_SET_PDEATHSIG sig) keep.
Definition set_child_finder_name_NULL : M R unit := ext e_set_child_finder_name keep.
Definition set_child_finder_NULL : M R unit := ext e_set_child_finder keep.
Definition make_syslog_ident (r : option string) (prog : string)
  : M R (option string) := ext_ret r (e_make_syslog_ident prog r) keep.
Definition sched_get_priority_max_SCHED_RR (r : Z) : M R Z :=
  ext_ret r (e_sched_get_priority_max r) keep.
Definition sched_setscheduler_SCHED_RR (r : Z) (pid : pid_t) (prio : Z) : M R Z :=
  ext_ret r (e_sched_setscheduler pid prio r) keep.
Definition chdir (r : Z) (path : string) : M R Z := ext_ret r (e_chdir path r) keep.
Definition umask (mask : Z) : M R unit := ext (e_umask mask) keep.
Definition pipe (r : option (Z * Z)) : M R (option (Z * Z)) :=
  ext_ret r (e_pipe r) keep.
Definition fcntl_F_GETFL (r : Z) (fd : Z) : M R Z := ext_ret r (e_fcntl_getfl fd r) keep.
Definition fcntl_F_SETFL (fd : Z) (flags : Z) : M R unit :=
  ext (e_fcntl_setfl fd flags) keep.
Definition stop_keepalived : M R unit := ext e_stop_keepalived keep.

(** Modelled from the spec: the macros SET_RELOAD and UNSET_RELOAD of
    main.h, which set and clear the process-wide reloading flag. *)
Definition SET_RELOAD : M R unit := ext e_SET_RELOAD (set_reload true).
Definition UNSET_RELOAD : M R unit := ext e_UNSET_RELOAD (set_reload false).
End Collaborators.

(** ** The functions of bfd_daemon.c *)

Section Daemon.
Variable cfg : config.
Variable os : oracle.

(** Daemon stop sequence *)
Definition stop_bfd (status : Z) : M unit unit :=
  signal_handler_destroy ;;
  (* Stop daemon *)
  pidfile_rm @@ sv bfd_pidfile ;;
  (* Clean data *)
  free_global_data @@ gv global_data ;;
  bfd_dispatcher_release @@ gv bfd_data ;;
  free_bfd_data @@ gv bfd_data ;;
  free_bfd_buffer ;;
  thread_destroy_master @@ gv master ;;
  when (_DEBUG_ cfg) (keepalived_free_final "BFD Child process") ;;
  log_message LOG_INFO "Stopped" [] ;;
  lfn <- sv log_file_name ;;
  when (is_some lfn) close_log_file ;;
  closelog ;;
  (if negb (_MEM_CHECK_LOG_ cfg) then FREE_PTR @@ gv bfd_syslog_ident
   else (ident <- gv bfd_syslog_ident ;; when (is_some ident) (free ident))) ;;
  close_std_fd ;;
  exit status.

(** Daemon init sequence *)
Definition open_bfd_pipe : M unit unit :=
  (* Open BFD control pipe *)
  r <- pipe (pipe_ret os) ;;
  match r with
  | None =>
      log_message LOG_ERR "Unable to create BFD event pipe: %m" [] ;;
      stop_keepalived ;;
      return_ tt
  | Some fds =>
      assign (set_bfd_event_pipe fds) ;;
      p <- gv bfd_event_pipe ;;
      fl0 <- fcntl_F_GETFL (fcntl_getfl os (fst p)) (fst p) ;;
      fcntl_F_SETFL (fst p) (Z.lor O_NONBLOCK fl0) ;;
      fl1 <- fcntl_F_GETFL (fcntl_getfl os (snd p)) (snd p) ;;
      fcntl_F_SETFL (snd p) (Z.lor O_NONBLOCK fl1)
  end.

(** Daemon init sequence *)
Definition start_bfd : M unit unit :=
  srand_time ;;
  set_global_data ::= alloc_global_data ;;
  set_bfd_data ::= alloc_bfd_data (alloc_bfd_data_ok os) ;;
  bd <- gv bfd_data ;;
  when (negb (is_some bd))
    (call (stop_bfd (KEEPALIVED_EXIT_FATAL cfg)) ;; return_ tt) ;;
  alloc_bfd_buffer ;;
  init_data @@ sv conf_file ;;
  bfd_complete_init ;;
  dbg <- sv debug ;;
  when (__test_bit (DUMP_CONF_BIT cfg) dbg) (dump_bfd_data @@ gv bfd_data) ;;
  bd <- gv bfd_data ;;
  thread_add_event fn_bfd_dispatcher_init bd @@ gv master.

(** Reload handler *)
Definition sighup_bfd : M unit unit :=
  thread_add_event fn_reload_bfd_thread None @@ gv master.

(** Terminate handler *)
Definition sigend_bfd : M unit unit :=
  m <- gv master ;;
  when (is_some m) (thread_add_terminate_event m).

(** BFD Child signal handling *)
Definition bfd_signal_init : M unit unit :=
  signal_handler_init ;;
  signal_set SIGHUP fn_sighup_bfd None ;;
  signal_set SIGINT fn_sigend_bfd None ;;
  signal_set SIGTERM fn_sigend_bfd None ;;
  signal_ignore SIGPIPE.

(** Reload thread *)
Definition reload_bfd_thread : M Z Z :=
  timer <- timer_now (timer_now_ret os) ;;
  (* set the reloading flag *)
  SET_RELOAD ;;
  (* Signal handling *)
  signal_handler_destroy ;;
  (* Destroy master thread *)
  bfd_dispatcher_release @@ gv bfd_data ;;
  thread_destroy_master @@ gv master ;;
  set_master ::= thread_make_master ;;
  free_global_data @@ gv global_data ;;
  free_bfd_buffer ;;
  set_old_bfd_data ::= gv bfd_data ;;
  assign (set_bfd_data None) ;;
  (* Reload the conf *)
  signal_set SIGCHLD fn_thread_child_handler @@ gv master ;;
  call start_bfd ;;
  free_bfd_data @@ gv old_bfd_data ;;
  UNSET_RELOAD ;;
  log_message LOG_INFO "Reload finished in %li usec" [timer_sub_now_ret os timer] ;;
  return_ 0.

Definition start_bfd_child : M Z Z :=
  ext e_start_bfd_child keep ;;
  when (negb (_DEBUG_ cfg)) (
    (* Initialize child process *)
    lfn <- sv log_file_name ;;
    when (is_some lfn) flush_log_file ;;
    pid <- fork (fork_ret os) ;;
    (if pid <? 0 then
       log_message LOG_INFO "BFD child process: fork error(%m)" [] ;;
       return_ (-1)
     else if negb (pid =? 0) then
       assign (set_bfd_child pid) ;;
       log_message LOG_INFO "Starting BFD child process, pid=%d" [pid] ;;
       (* Start respawning thread *)
       thread_add_child fn_bfd_respawn_thread pid (RESPAWN_TIMER cfg) @@ gv master ;;
       return_ 0
     else ret tt) ;;
    prctl_PR_SET_PDEATHSIG SIGTERM ;;
    (* Clear any child finder functions set in parent *)
    set_child_finder_name_NULL ;;
    set_child_finder_NULL ;;
    assign (set_prog_type PROG_TYPE_BFD) ;;
    iname <- sv instance_name ;;
    nns <- sv network_namespace ;;
    (* [named] is [bfd_syslog_ident] where the condition of the C [if]
       holds and NULL where it fails; [&&] calls [make_syslog_ident] only
       when a name is configured *)
    named <- (if is_some iname || (HAVE_DECL_CLONE_NEWNET cfg && is_some nns)
              then set_bfd_syslog_ident
                     ::= make_syslog_ident (make_syslog_ident_ret os) (PROG_BFD cfg) ;;
                   gv bfd_syslog_ident
              else ret None) ;;
    let syslog_ident :=
      match named with Some s => s | None => PROG_BFD cfg end in
    (* Opening local BFD syslog channel *)
    dbg <- sv debug ;;
    fac <- sv log_facility ;;
    when (negb (__test_bit (NO_SYSLOG_BIT cfg) dbg))
      (openlog syslog_ident
         (Z.lor LOG_PID (if __test_bit (LOG_CONSOLE_BIT cfg) dbg then LOG_CONS else 0))
         (if fac =? LOG_DAEMON then LOG_LOCAL2 else fac)) ;;
    lfn <- sv log_file_name ;;
    when (is_some lfn) (open_log_file lfn "bfd" nns iname) ;;
    signal_handler_destroy ;;
    when (_MEM_CHECK_ cfg)
      (mem_log_init (PROG_CHECK cfg) "Healthcheck child process") ;;
    free_parent_mallocs_startup true ;;
    when (BFD_SCHED_RT cfg) (
      (* Set realtime priority *)
      prio <- sched_get_priority_max_SCHED_RR (sched_get_priority_max_ret os) ;;
      r <- sched_setscheduler_SCHED_RR (sched_setscheduler_ret os) pid prio ;;
      when (negb (r =? 0))
        (log_message LOG_WARNING "BFD child process: cannot raise priority" [])) ;;
    (* Child process part, write pidfile *)
    path <- sv bfd_pidfile ;;
    me <- getpid (getpid_ret os) ;;
    ok <- pidfile_write (pidfile_write_ret os) path me ;;
    when (negb ok) (
      (* Fatal error *)
      log_message LOG_INFO "BFD child process: cannot write pidfile" [] ;;
      exit 0) ;;
    (* Create the new master thread *)
    signal_handler_destroy ;;
    thread_destroy_master @@ gv master ;;
    set_master ::= thread_make_master ;;
    (* change to / dir *)
    r <- chdir (chdir_ret os) "/" ;;
    when (r <? 0) (log_message LOG_INFO "BFD child process: error chdir" []) ;;
    (* Set mask *)
    umask 0) ;;
  (* If last process died during a reload, we can get there and we
     don't want to loop again, because we're not reloading anymore. *)
  UNSET_RELOAD ;;
  (* Signal handling initialization *)
  call bfd_signal_init ;;
  (* Start BFD daemon *)
  call start_bfd ;;
  (* Launch the scheduling I/O multiplexer *)
  launch_scheduler ;;
  (* Finish BFD daemon process *)
  call (stop_bfd EXIT_SUCCESS) ;;
  (* unreachable *)
  exit EXIT_SUCCESS.

(** BFD Child respawning thread *)
Definition bfd_respawn_thread (thread : thread_t) : M Z Z :=
  (* Fetch thread args *)
  let pid := THREAD_CHILD_PID thread in
  (* Restart respawning thread *)
  when (thread_type_eqb (type thread) THREAD_CHILD_TIMEOUT) (
    thread_add_child fn_bfd_respawn_thread pid (RESPAWN_TIMER cfg) @@ gv master ;;
    return_ 0) ;;
  (* We catch a SIGCHLD, handle it *)
  dbg <- sv debug ;;
  (if negb (__test_bit (DONT_RESPAWN_BIT cfg) dbg) then
     log_message LOG_ALERT "BFD child process(%d) died: Respawning" [pid] ;;
     call start_bfd_child ;;
     ret tt
   else
     log_message LOG_ALERT "BFD child process(%d) died: Exiting" [pid] ;;
     raise SIGTERM) ;;
  return_ 0.

End Daemon.

(** ** Reading histories *)

Definition is_start_bfd_child (e : event) : bool :=
  match e with e_start_bfd_child => true | _ => false end.

Definition is_thread_make_master (e : event) : bool :=
  match e with e_thread_make_master _ => true | _ => false end.

Definition is_signal_handler_init (e : event) : bool :=
  match e with e_signal_handler_init => true | _ => false end.

Definition is_UNSET_RELOAD (e : event) : bool :=
  match e with e_UNSET_RELOAD => true | _ => false end.

Definition is_raise_SIGTERM (e : event) : bool :=
  match e with e_raise SIGTERM => true | _ => false end.

Definition touches_pidfile (e : event) : bool :=
  match e with e_pidfile_write _ _ _ | e_pidfile_rm _ => true | _ => false end.

Definition registers_signal (e : event) : bool :=
  match e with e_signal_set _ _ _ | e_signal_ignore _ => true | _ => false end.

(** The part of a history from the first event that satisfies [p] on, and
    the part before it. *)
Fixpoint from_first (p : event -> bool) (h : hist) : hist :=
  match h with
  | [] => []
  | s :: h' => if p (fst s) then h else from_first p h'
  end.

Fixpoint before_first (p : event -> bool) (h : hist) : hist :=
  match h with
  | [] => []
  | s :: h' => if p (fst s) then [] else s :: before_first p h'
  end.

(** Text of a logged message: [%d] and [%li] take the next argument in
    decimal, everything else is copied. *)
Definition dec (z : Z) : string := NilEmpty.string_of_int (Z.to_int z).

Fixpoint render (fmt : string) (args : list Z) : string :=
  match fmt with
  | EmptyString => EmptyString
  | String "%" (String "d" rest) =>
      match args with
      | a :: args' => (dec a ++ render rest args')%string
      | [] => String "%" (String "d" (render rest []))
      end
  | String "%" (String "l" (String "i" rest)) =>
      match args with
      | a :: args' => (dec a ++ render rest args')%string
      | [] => String "%" (String "l" (String "i" (render rest [])))
      end
  | String c rest => String c (render rest args)
  end.

Definition logged (e : event) : option string :=
  match e with
  | e_log_message _ fmt args => Some (render fmt args)
  | _ => None
  end.

Fixpoint filter_some {A} (l : list (option A)) : list A :=
  match l with
  | [] => []
  | Some a :: l' => a :: filter_some l'
  | None :: l' => filter_some l'
  end.

(** The log of a run: the texts of its messages, oldest first. *)
Definition log_of {R A} (r : res R A) : list string :=
  filter_some (map logged (events r)).

(** [contains needle s]: [needle] occurs in [s]. *)
Fixpoint contains (needle s : string) : bool :=
  String.prefix needle s ||
  match s with
  | EmptyString => false
  | String _ s' => contains needle s'
  end.

(** ** Respawn policy *)

Definition respawn_attempted {R A} (r : res R A) : bool :=
  existsb is_start_bfd_child (events r).

(** [DONT_RESPAWN_BIT] clear in [debug]. *)
Definition respawn_enabled (cfg : config) (st : proc) : bool :=
  negb (__test_bit (DONT_RESPAWN_BIT cfg) (debug (cf st))).

(** The notification is the re-arm tick of the watchdog. *)
Definition rearm_tick (thread : thread_t) : bool :=
  thread_type_eqb (type thread) THREAD_CHILD_TIMEOUT.

(** The supervisor states of the specification's data model.  The program
    keeps no variable of this kind: it is a quantity of the specification
    only, which no function of bfd_daemon.c reads or writes. *)
Inductive SupervisorState :=
| STARTING | RUNNING | RELOADING | RESPAWNING | STOPPING | STOPPED.

(** The respawn rule as the specification words it, for a supervisor that
    is in state [sup] when the notification arrives. *)
Definition respawn_rule_of_spec (cfg : config) (os : oracle)
  (sup : SupervisorState) (thread : thread_t) (st : proc) : Prop :=
  respawn_attempted (bfd_respawn_thread cfg os thread st) = true <->
  (respawn_enabled cfg st = true /\ rearm_tick thread = false /\ sup <> STOPPING).

(** Modelled from the spec: the supervisor's own terminate path (main.c,
    which installs the supervisor's SIGTERM handler and ends the
    supervisor, is not among the sources).  "If disabled and the worker
    dies, the supervisor must terminate itself"; "supervisor raises
    TerminateEvent and exits with a non-zero status".  The specification
    fixes only that the status is not zero; [EXIT_FAILURE] stands for it. *)
Definition EXIT_FAILURE : Z := 1.

Definition supervisor_terminate {R A} (r : res R A) : option Z :=
  if existsb is_raise_SIGTERM (events r) then Some EXIT_FAILURE else None.

(** ** Generations of the runtime state *)

(** One generation: configuration store, protocol-engine data, buffer. *)
Record generation := {
  gen_global_data : option ptr;
  gen_bfd_data : option ptr;
  gen_bfd_buffer : option ptr
}.

Definition generation_of (st : proc) : generation :=
  {| gen_global_data := global_data (g st);
     gen_bfd_data := bfd_data (g st);
     gen_bfd_buffer := bfd_buffer (w st) |}.

Definition generation_live (gen : generation) (st : proc) : bool :=
  live (gen_global_data gen) st && live (gen_bfd_data gen) st
  && live (gen_bfd_buffer gen) st.

(** At every point of the run [r] the generation [old] or the generation
    [new] is live as a whole. *)
Definition some_generation_live {R A} (old new : generation) (r : res R A) : bool :=
  forallb (fun s => generation_live old (snd s) || generation_live new (snd s))
          (trace r).

(** The same for the protocol-engine data alone. *)
Definition some_bfd_data_live {R A} (old new : generation) (r : res R A) : bool :=
  forallb (fun s => live (gen_bfd_data old) (snd s) || live (gen_bfd_data new) (snd s))
          (trace r).

Fixpoint distinct (l : list (option ptr)) : bool :=
  match l with
  | [] => true
  | None :: l' => distinct l'
  | Some a :: l' =>
      negb (existsb (fun o => match o with Some b => a =? b | None => false end) l')
      && distinct l'
  end.

(** A worker that is up: run loop, configuration store, protocol-engine
    data and buffer are four different live blocks, and the allocator has
    handed out every live address. *)
Definition running (st : proc) : bool :=
  live (master (g st)) st && live (global_data (g st)) st
  && live (bfd_data (g st)) st && live (bfd_buffer (w st)) st
  && distinct [master (g st); global_data (g st); bfd_data (g st); bfd_buffer (w st)]
  && forallb (fun a => a <? brk (w st)) (heap (w st)).

(** ** Order of acquisition and release *)

Inductive resource := r_global_data | r_bfd_data | r_bfd_buffer.

Definition acquired (e : event) : option resource :=
  match e with
  | e_alloc_global_data _ => Some r_global_data
  | e_alloc_bfd_data (Some _) => Some r_bfd_data
  | e_alloc_bfd_buffer _ => Some r_bfd_buffer
  | _ => None
  end.

Definition released (e : event) : option resource :=
  match e with
  | e_free_global_data _ => Some r_global_data
  | e_free_bfd_data _ => Some r_bfd_data
  | e_free_bfd_buffer _ => Some r_bfd_buffer
  | _ => None
  end.

Definition acquisition_order (es : list event) : list resource :=
  filter_some (map acquired es).

Definition release_order (es : list event) : list resource :=
  filter_some (map released es).

(** The steps of the stop sequence. *)
Inductive stop_step :=
| step_signals | step_pidfile | step_runtime_state | step_run_loop
| step_identity | step_std_fd | step_exit.

Definition stop_step_eqb (a b : stop_step) : bool :=
  match a, b with
  | step_signals, step_signals | step_pidfile, step_pidfile
  | step_runtime_state, step_runtime_state | step_run_loop, step_run_loop
  | step_identity, step_identity | step_std_fd, step_std_fd
  | step_exit, step_exit => true
  | _, _ => false
  end.

Definition stop_step_of (e : event) : option stop_step :=
  match e with
  | e_signal_handler_destroy => Some step_signals
  | e_pidfile_rm _ => Some step_pidfile
  | e_free_global_data _ | e_bfd_dispatcher_release _
  | e_free_bfd_data _ | e_free_bfd_buffer _ => Some step_runtime_state
  | e_thread_destroy_master _ => Some step_run_loop
  | e_close_log_file | e_closelog | e_FREE_PTR _ | e_free _ => Some step_identity
  | e_close_std_fd => Some step_std_fd
  | e_exit _ => Some step_exit
  | _ => None
  end.

(** Consecutive repetitions of a step count once. *)
Fixpoint compress (l : list stop_step) : list stop_step :=
  match l with
  | [] => []
  | a :: l' =>
      match l' with
      | b :: _ => if stop_step_eqb a b then compress l' else a :: compress l'
      | [] => [a]
      end
  end.

Definition stop_steps (es : list event) : list stop_step :=
  compress (filter_some (map stop_step_of es)).

Definition stop_steps_of_spec : list stop_step :=
  [step_signals; step_pidfile; step_runtime_state; step_run_loop;
   step_identity; step_std_fd; step_exit].

(** The stop sequence as the specification words it: the seven steps in
    order, ending in [exit(status)], the runtime state being released in
    the reverse of the order in which [start_bfd] acquired it. *)
Definition stop_sequence_of_spec (cfg : config) (os : oracle) (status : Z)
  (st1 st : proc) : Prop :=
  stop_steps (events (stop_bfd cfg status st)) = stop_steps_of_spec /\
  exit_status (stop_bfd cfg status st) = Some status /\
  release_order (events (stop_bfd cfg status st))
  = rev (acquisition_order (events (start_bfd cfg os st1))).

(** ** Delivery of a signal *)

Definition handler_body (h : sig_handler) : option (M unit unit) :=
  match h with
  | fn_sighup_bfd => Some sighup_bfd
  | fn_sigend_bfd => Some sigend_bfd
  | fn_thread_child_handler => None         (* scheduler.c *)
  end.

(** Modelled from the spec: what the signal layer (signals.c, not among
    the sources) does with a signal that arrives: it runs the handler
    registered for it, and does nothing for an ignored signal.  [None]
    where the table has no entry or the handler is not of this file. *)
Definition deliver (sig : signal) (st : proc) : option (res unit unit) :=
  match sig_lookup sig (sigtab (w st)) with
  | Some (Handler h _) =>
      match handler_body h with
      | Some body => Some (body st)
      | None => None
      end
  | Some Ignored => Some (Next tt st [])
  | None => None
  end.

(** The handlers [bfd_signal_init] installs. *)
Definition bfd_signal_table : list (signal * disposition) :=
  [(SIGPIPE, Ignored); (SIGTERM, Handler fn_sigend_bfd None);
   (SIGINT, Handler fn_sigend_bfd None); (SIGHUP, Handler fn_sighup_bfd None)].

(** All of the worker's handlers are in place: reload, terminate,
    broken-pipe-ignore, and the child-state-change handler on the run
    loop [m]. *)
Definition handlers_established (m : option ptr) (st : proc) : bool :=
  match sig_lookup SIGHUP (sigtab (w st)), sig_lookup SIGINT (sigtab (w st)),
        sig_lookup SIGTERM (sigtab (w st)), sig_lookup SIGPIPE (sigtab (w st)),
        sig_lookup SIGCHLD (sigtab (w st)) with
  | Some (Handler fn_sighup_bfd _), Some (Handler fn_sigend_bfd _),
    Some (Handler fn_sigend_bfd _), Some Ignored,
    Some (Handler fn_thread_child_handler m') =>
      match m, m' with
      | Some a, Some b => a =? b
      | _, _ => false
      end
  | _, _, _, _, _ => false
  end.

(** ** Start of a worker *)

(** The calls of [bfd_signal_init] and [start_bfd]. *)
Definition starts_worker (e : event) : bool :=
  match e with
  | e_signal_handler_init | e_signal_set _ _ _ | e_signal_ignore _
  | e_srand | e_alloc_global_data _ | e_alloc_bfd_data _
  | e_alloc_bfd_buffer _ | e_init_data _ | e_bfd_complete_init
  | e_dump_bfd_data _ | e_thread_add_event _ _ _ => true
  | _ => false
  end.

Definition reload_clear (s : event * proc) : bool := negb (reload (g (snd s))).

(** The end of a list of events. *)
Definition ends_with (l suffix : list event) : Prop :=
  exists before, l = before ++ suffix.

(** ** Sample inputs *)

Definition sample_cfg : config :=
  {| _DEBUG_ := false; BFD_SCHED_RT := true; HAVE_DECL_CLONE_NEWNET := true;
     _MEM_CHECK_ := false; _MEM_CHECK_LOG_ := false;
     DONT_RESPAWN_BIT := 8; DUMP_CONF_BIT := 3; NO_SYSLOG_BIT := 1;
     LOG_CONSOLE_BIT := 0;
     KEEPALIVED_EXIT_FATAL := 2; RESPAWN_TIMER := 60000000;
     PROG_BFD := "Keepalived_bfd"; PROG_CHECK := "Keepalived_healthcheckers" |}.

Definition sample_os : oracle :=
  {| fork_ret := 0; getpid_ret := 4242; pidfile_write_ret := true;
     alloc_bfd_data_ok := true; make_syslog_ident_ret := None;
     sched_get_priority_max_ret := 99; sched_setscheduler_ret := 0;
     chdir_ret := 0; pipe_ret := Some (3, 4); fcntl_getfl := fun _ => 0;
     timer_now_ret := 1000; timer_sub_now_ret := fun _ => 250 |}.

(** In the supervisor: [fork] returns the pid of the new worker. *)
Definition sample_os_parent : oracle :=
  {| fork_ret := 78; getpid_ret := 4000; pidfile_write_ret := true;
     alloc_bfd_data_ok := true; make_syslog_ident_ret := None;
     sched_get_priority_max_ret := 99; sched_setscheduler_ret := 0;
     chdir_ret := 0; pipe_ret := Some (3, 4); fcntl_getfl := fun _ => 0;
     timer_now_ret := 1000; timer_sub_now_ret := fun _ => 250 |}.

(** The pidfile cannot be written. *)
Definition sample_os_pidfile_fails : oracle :=
  {| fork_ret := 0; getpid_ret := 4242; pidfile_write_ret := false;
     alloc_bfd_data_ok := true; make_syslog_ident_ret := None;
     sched_get_priority_max_ret := 99; sched_setscheduler_ret := 0;
     chdir_ret := 0; pipe_ret := Some (3, 4); fcntl_getfl := fun _ => 0;
     timer_now_ret := 1000; timer_sub_now_ret := fun _ => 250 |}.

Definition sample_settings (dbg : Z) : settings :=
  {| debug := dbg; log_file_name := None; instance_name := None;
     network_namespace := None; log_facility := LOG_DAEMON;
     conf_file := "/etc/keepalived/keepalived.conf";
     bfd_pidfile := "/var/run/bfd.pid" |}.

(** A worker that is up, with the handlers of [bfd_signal_init]. *)
Definition sample_worker : proc :=
  {| g := {| master := Some 1; global_data := Some 2; bfd_data := Some 3;
             old_bfd_data := None; reload := false; bfd_child := 0;
             prog_type := PROG_TYPE_BFD; bfd_syslog_ident := None;
             bfd_event_pipe := (-1, -1) |};
     cf := sample_settings 0;
     w := {| heap := [4; 3; 2; 1]; brk := 5; bfd_buffer := Some 4;
             sigtab := bfd_signal_table; pidfile := Some 4242 |} |}.

(** A supervisor whose worker has pid 77; [dbg] is its [debug] word.  The
    reloading flag is set, as after a worker that died during a reload. *)
Definition sample_supervisor (dbg : Z) : proc :=
  {| g := {| master := Some 1; global_data := Some 2; bfd_data := None;
             old_bfd_data := None; reload := true; bfd_child := 77;
             prog_type := PROG_TYPE_PARENT; bfd_syslog_ident := None;
             bfd_event_pipe := (3, 4) |};
     cf := sample_settings dbg;
     w := {| heap := [2; 1]; brk := 3; bfd_buffer := None;
             sigtab := []; pidfile := None |} |}.

Definition sample_death : thread_t :=
  {| type := THREAD_CHILD; THREAD_CHILD_PID := 77 |}.

(** A process without a run loop. *)
Definition sample_no_master : proc := set_master None sample_worker.

(** ** Expected histories *)

(** The run returned to its caller with value [v]. *)
Definition returned {R A} (r : res R A) : option R :=
  match r with Returned v _ _ => Some v | _ => None end.

(** [c] does not occur in [s]. *)
Fixpoint lacks (c : ascii) (s : string) : bool :=
  match s with
  | EmptyString => true
  | String a s' => negb (Ascii.eqb c a) && lacks c s'
  end.

Definition hist_ends_with (t suffix : hist) : Prop :=
  exists before, t = before ++ suffix.

(** The calls of [stop_bfd(status)], in order. *)
Definition stop_bfd_events (cfg : config) (status : Z) (st : proc) : list event :=
  [e_signal_handler_destroy;
   e_pidfile_rm (bfd_pidfile (cf st));
   e_free_global_data (global_data (g st));
   e_bfd_dispatcher_release (bfd_data (g st));
   e_free_bfd_data (bfd_data (g st));
   e_free_bfd_buffer (bfd_buffer (w st));
   e_thread_destroy_master (master (g st))]
  ++ (if _DEBUG_ cfg then [e_keepalived_free_final "BFD Child process"] else [])
  ++ [e_log_message LOG_INFO "Stopped" []]
  ++ (if is_some (log_file_name (cf st)) then [e_close_log_file] else [])
  ++ [e_closelog]
  ++ (if negb (_MEM_CHECK_LOG_ cfg) then [e_FREE_PTR (bfd_syslog_ident (g st))]
      else if is_some (bfd_syslog_ident (g st))
           then [e_free (bfd_syslog_ident (g st))] else [])
  ++ [e_close_std_fd; e_exit status].

(** The calls of a reload whose [alloc_bfd_data] succeeds, in order; [b]
    is the first address the allocator hands out. *)
Definition reload_events (cfg : config) (os : oracle) (st : proc) : list event :=
  let b := brk (w st) in
  [e_timer_now (timer_now_ret os); e_SET_RELOAD; e_signal_handler_destroy;
   e_bfd_dispatcher_release (bfd_data (g st));
   e_thread_destroy_master (master (g st));
   e_thread_make_master b;
   e_free_global_data (global_data (g st));
   e_free_bfd_buffer (bfd_buffer (w st));
   e_signal_set SIGCHLD fn_thread_child_handler (Some b);
   e_srand;
   e_alloc_global_data (b + 1);
   e_alloc_bfd_data (Some (b + 1 + 1));
   e_alloc_bfd_buffer (b + 1 + 1 + 1);
   e_init_data (conf_file (cf st));
   e_bfd_complete_init]
  ++ (if __test_bit (DUMP_CONF_BIT cfg) (debug (cf st))
      then [e_dump_bfd_data (Some (b + 1 + 1))] else [])
  ++ [e_thread_add_event (Some b) fn_bfd_dispatcher_init (Some (b + 1 + 1));
      e_free_bfd_data (bfd_data (g st));
      e_UNSET_RELOAD;
      e_log_message LOG_INFO "Reload finished in %li usec"
        [timer_sub_now_ret os (timer_now_ret os)]].

(** The reload as the specification words it: some generation of the
    runtime state is live as a whole at every point, the new one being
    complete before anything of the previous one is released. *)
Definition reload_generations_of_spec (cfg : config) (os : oracle) (st : proc)
  : Prop :=
  let r := reload_bfd_thread cfg os st in
  some_generation_live (generation_of st) (generation_of (final r)) r = true.

(** [start_bfd_child] goes on as the worker: the build has no fork, or
    this is the child of the fork and its pidfile could be written. *)
Definition worker_path (cfg : config) (os : oracle) : bool :=
  _DEBUG_ cfg || ((fork_ret os =? 0) && pidfile_write_ret os).


(** ** Further readers of histories *)

(** What [f] reads off the calls of a history, in order. *)
Definition collect {X} (f : event -> option X) (h : hist) : list X :=
  filter_some (map f (map fst h)).

(** The state right after the first call that satisfies [p]. *)
Definition state_at (p : event -> bool) (h : hist) : option proc :=
  match from_first p h with
  | s :: _ => Some (snd s)
  | [] => None
  end.

(** The run reached the end of the function body. *)
Definition falls_through {R A} (r : res R A) : bool :=
  match r with Next _ _ _ => true | _ => false end.

Definition is_thread_add_child (e : event) : bool :=
  match e with e_thread_add_child _ _ _ _ => true | _ => false end.

Definition is_free_bfd_data (e : event) : bool :=
  match e with e_free_bfd_data _ => true | _ => false end.

Definition is_launch_scheduler (e : event) : bool :=
  match e with e_launch_scheduler => true | _ => false end.


Definition is_make_syslog_ident (e : event) : bool :=
  match e with e_make_syslog_ident _ _ => true | _ => false end.

(** A message logged with the format [fmt]. *)
Definition is_log (fmt : string) (e : event) : bool :=
  match e with
  | e_log_message _ f _ => String.eqb f fmt
  | _ => false
  end.

(** Descriptor and flags of a [fcntl(fd, F_SETFL, flags)]. *)
Definition setfl_args (e : event) : option (Z * Z) :=
  match e with
  | e_fcntl_setfl fd flags => Some (fd, flags)
  | _ => None
  end.

(** Identifier, option and facility of an [openlog]. *)
Definition openlog_args (e : event) : option (string * Z * Z) :=
  match e with
  | e_openlog ident option facility => Some (ident, option, facility)
  | _ => None
  end.

(** The process a [sched_setscheduler] is applied to. *)
Definition sched_target (e : event) : option pid_t :=
  match e with
  | e_sched_setscheduler pid _ _ => Some pid
  | _ => None
  end.

(** ** The runtime state as a set of blocks *)

(** The calls of [start_bfd] that follow a successful [alloc_bfd_data]. *)
Definition builds_runtime (e : event) : bool :=
  match e with
  | e_alloc_bfd_buffer _ | e_init_data _ | e_bfd_complete_init
  | e_dump_bfd_data _ | e_thread_add_event _ _ _ => true
  | _ => false
  end.

(** A process that has its run loop, and whose allocator has handed out
    every live address. *)
Definition loop_ready (st : proc) : bool :=
  live (master (g st)) st && forallb (fun a => a <? brk (w st)) (heap (w st)).

(** The calls of a [start_bfd] whose [alloc_bfd_data] succeeds, in order. *)
Definition start_bfd_events (cfg : config) (st : proc) : list event :=
  let b := brk (w st) in
  [e_srand; e_alloc_global_data b; e_alloc_bfd_data (Some (b + 1));
   e_alloc_bfd_buffer (b + 1 + 1); e_init_data (conf_file (cf st));
   e_bfd_complete_init]
  ++ (if __test_bit (DUMP_CONF_BIT cfg) (debug (cf st))
      then [e_dump_bfd_data (Some (b + 1))] else [])
  ++ [e_thread_add_event (master (g st)) fn_bfd_dispatcher_init (Some (b + 1))].

(** The four pointers of the worker: run loop, configuration store,
    protocol-engine data, buffer. *)
Definition runtime_blocks (st : proc) : list (option ptr) :=
  [master (g st); global_data (g st); bfd_data (g st); bfd_buffer (w st)].

Definition is_runtime_block (a : ptr) (st : proc) : bool :=
  existsb (fun o => match o with Some b => a =? b | None => false end)
          (runtime_blocks st).

(** The blocks a call is handed, or releases. *)
Definition uses (e : event) : list (option ptr) :=
  match e with
  | e_free_global_data p | e_free_bfd_data p | e_free_bfd_buffer p
  | e_bfd_dispatcher_release p | e_dump_bfd_data p
  | e_thread_destroy_master p | e_thread_add_terminate_event p
  | e_signal_set _ _ p => [p]
  | e_thread_add_event m _ arg => [m; arg]
  | e_thread_add_child m _ _ _ => [m]
  | _ => []
  end.

Definition live_or_null (p : option ptr) (st : proc) : bool :=
  match p with
  | Some _ => live p st
  | None => true
  end.

(** Every block a call of the history [h] is handed is live when the call
    is made; [prev] is the state the history starts in. *)
Fixpoint uses_live (prev : proc) (h : hist) : bool :=
  match h with
  | [] => true
  | s :: h' =>
      forallb (fun p => live_or_null p prev) (uses (fst s))
      && uses_live (snd s) h'
  end.

(** ** More expected histories *)

(** The calls of [start_bfd_child] in the supervisor, [fork] having
    returned [pid] (not 0). *)
Definition launch_events (cfg : config) (pid : pid_t) (st : proc) : list event :=
  [e_start_bfd_child]
  ++ (if is_some (log_file_name (cf st)) then [e_flush_log_file] else [])
  ++ [e_fork pid]
  ++ (if pid <? 0
      then [e_log_message LOG_INFO "BFD child process: fork error(%m)" []]
      else [e_log_message LOG_INFO "Starting BFD child process, pid=%d" [pid];
            e_thread_add_child (master (g st)) fn_bfd_respawn_thread pid
              (RESPAWN_TIMER cfg)]).

(** The calls of a reload up to its call of [start_bfd]. *)
Definition reload_teardown_events (os : oracle) (st : proc) : list event :=
  let b := brk (w st) in
  [e_timer_now (timer_now_ret os); e_SET_RELOAD; e_signal_handler_destroy;
   e_bfd_dispatcher_release (bfd_data (g st));
   e_thread_destroy_master (master (g st));
   e_thread_make_master b;
   e_free_global_data (global_data (g st));
   e_free_bfd_buffer (bfd_buffer (w st));
   e_signal_set SIGCHLD fn_thread_child_handler (Some b)].

(** One reload after the other, the n-th with the n-th oracle. *)
Fixpoint reloads (cfg : config) (oss : list oracle) (st : proc) : proc :=
  match oss with
  | [] => st
  | os :: oss' => reloads cfg oss' (final (reload_bfd_thread cfg os st))
  end.

(** [instance_name || network_namespace] of [start_bfd_child]. *)
Definition name_configured (cfg : config) (st : proc) : bool :=
  is_some (instance_name (cf st))
  || (HAVE_DECL_CLONE_NEWNET cfg && is_some (network_namespace (cf st))).

(** ** More sample inputs *)

(** [pipe] fails. *)
Definition sample_os_no_pipe : oracle :=
  {| fork_ret := 0; getpid_ret := 4242; pidfile_write_ret := true;
     alloc_bfd_data_ok := true; make_syslog_ident_ret := None;
     sched_get_priority_max_ret := 99; sched_setscheduler_ret := 0;
     chdir_ret := 0; pipe_ret := None; fcntl_getfl := fun _ => 0;
     timer_now_ret := 1000; timer_sub_now_ret := fun _ => 250 |}.

(** [alloc_bfd_data] returns NULL. *)
Definition sample_os_alloc_fails : oracle :=
  {| fork_ret := 0; getpid_ret := 4242; pidfile_write_ret := true;
     alloc_bfd_data_ok := false; make_syslog_ident_ret := None;
     sched_get_priority_max_ret := 99; sched_setscheduler_ret := 0;
     chdir_ret := 0; pipe_ret := Some (3, 4); fcntl_getfl := fun _ => 0;
     timer_now_ret := 1000; timer_sub_now_ret := fun _ => 250 |}.

(** The re-arm tick of the watchdog of worker 77. *)
Definition sample_tick : thread_t :=
  {| type := THREAD_CHILD_TIMEOUT; THREAD_CHILD_PID := 77 |}.

(** ** Running a sequence symbolically

    The three ways a computation hands its result on: to the statement
    that follows it, to its caller, and to the history before it. *)

Definition seq_res {R A B} (r1 : res R A) (f : A -> M R B) : res R B :=
  match r1 with
  | Next a s t => after t (f a s)
  | Returned v s t => Returned v s t
  | Exited c s t => Exited c s t
  end.

Definition call_res {R R'} (r : res R' R') : res R R' :=
  match r with
  | Next a s t => Next a s t
  | Returned v s t => Next v s t
  | Exited c s t => Exited c s t
  end.

Definition after_res {R A} (t : hist) (r : res R A) : res R A := after t r.

(** * Properties *)

(** ** Evaluation lemmas *)

Section Exec.
Context {R A B : Type}.

Lemma ev_bind (m : M R A) (f : A -> M R B) st r1 r :
  m st = r1 -> seq_res r1 f = r -> bind m f st = r.
Proof. intros <- <-. reflexivity. Qed.

Lemma ev_seq_if (c : bool) (r1 r2 : res R A) (f : A -> M R B) x1 x2 :
  seq_res r1 f = x1 -> seq_res r2 f = x2 ->
  seq_res (if c then r1 else r2) f = (if c then x1 else x2).
Proof. intros <- <-. now destruct c. Qed.

Lemma ev_after (t : hist) (x r r' : res R A) :
  x = r -> after_res t r = r' -> after t x = r'.
Proof. now intros -> <-. Qed.

Lemma ev_after_if (t : hist) (c : bool) (a b x1 x2 : res R A) :
  after_res t a = x1 -> after_res t b = x2 ->
  after_res t (if c then a else b) = (if c then x1 else x2).
Proof. intros <- <-. now destruct c. Qed.

Lemma ev_if_split (c : bool) (m1 m2 : M R A) st r1 r2 :
  m1 st = r1 -> m2 st = r2 ->
  (if c then m1 else m2) st = (if c then r1 else r2).
Proof. intros <- <-. now destruct c. Qed.
End Exec.

Lemma ev_when_id {R} (c : bool) (body : M R unit) st tb :
  body st = Next tt st tb -> when c body st = Next tt st (if c then tb else []).
Proof. intros H. destruct c; cbn; [exact H | reflexivity]. Qed.

Lemma ev_if_id {R} (c : bool) (m1 m2 : M R unit) st t1 t2 :
  m1 st = Next tt st t1 -> m2 st = Next tt st t2 ->
  (if c then m1 else m2) st = Next tt st (if c then t1 else t2).
Proof. intros H1 H2. destruct c; assumption. Qed.

Lemma ev_call {R R'} (body : M R' R') st r (r' : res R R') :
  body st = r -> call_res r = r' -> call body st = r'.
Proof. intros <- <-. reflexivity. Qed.

Lemma ev_call_if {R R'} (c : bool) (r1 r2 : res R' R') (x1 x2 : res R R') :
  call_res r1 = x1 -> call_res r2 = x2 ->
  call_res (if c then r1 else r2) = (if c then x1 else x2).
Proof. intros <- <-. now destruct c. Qed.

Lemma ev_if_res {A} (c : bool) (a b r1 r2 : A) :
  a = r1 -> b = r2 -> (if c then a else b) = (if c then r1 else r2).
Proof. now intros -> ->. Qed.

Lemma ev_eq {A} (x y z : A) : x = y -> y = z -> x = z.
Proof. congruence. Qed.

Ltac calc := cbn -[Z.testbit Z.lor Z.eqb Z.ltb Z.add].

(** [ev] solves [m st = ?r], running [m] from [st] statement by
    statement.  A condition that is not known is kept in the result: as
    a conditional piece of history where the guarded statement leaves the
    state alone, as a conditional result otherwise. *)
Ltac ev :=
  lazymatch goal with
  | |- bind ?m ?f ?st = _ => eapply ev_bind; [ev | ev]
  | |- seq_res (if ?c then _ else _) _ = _ => eapply ev_seq_if; [ev | ev]
  | |- seq_res _ _ = _ => lazy beta iota zeta delta [seq_res]; ev
  | |- call_res (if ?c then _ else _) = _ => eapply ev_call_if; [ev | ev]
  | |- call_res _ = _ => lazy beta iota delta [call_res]; reflexivity
  | |- after ?t ?x = _ => eapply ev_after; [ev | ev]
  | |- after_res _ (if ?c then _ else _) = _ => eapply ev_after_if; [ev | ev]
  | |- after_res _ _ = _ =>
      lazy beta iota delta [after_res after]; cbn [app]; reflexivity
  | |- call ?body ?st = _ => eapply ev_call; [ev | ev]
  | |- when ?c ?body ?st = _ =>
      let c' := eval cbn in c in
      lazymatch c' with
      | true => change (when c body st) with (body st); ev
      | false =>
          lazymatch type of body with
          | M ?R _ => change (when c body st) with (@Next R unit tt st []); reflexivity
          end
      | _ => first [ eapply ev_eq; [eapply ev_when_id; ev | reflexivity]
                   | unfold when; ev ]
      end
  | |- (if ?c then ?m1 else ?m2) ?st = _ =>
      let c' := eval cbn in c in
      lazymatch c' with
      | true => change ((if c then m1 else m2) st) with (m1 st); ev
      | false => change ((if c then m1 else m2) st) with (m2 st); ev
      | _ => first [ eapply ev_eq; [eapply ev_if_id; ev | reflexivity]
                   | eapply ev_if_split; [ev | ev] ]
      end
  | |- (if ?c then _ else _) = _ => eapply ev_if_res; [ev | ev]
  | |- Next _ _ _ = _ => calc; reflexivity
  | |- Returned _ _ _ = _ => calc; reflexivity
  | |- Exited _ _ _ = _ => calc; reflexivity
  | |- stop_bfd _ _ _ = _ => unfold stop_bfd; ev
  | |- start_bfd _ _ _ = _ => unfold start_bfd; ev
  | |- bfd_signal_init _ = _ => unfold bfd_signal_init; ev
  | |- sighup_bfd _ = _ => unfold sighup_bfd; ev
  | |- sigend_bfd _ = _ => unfold sigend_bfd; ev
  | |- open_bfd_pipe _ _ = _ => unfold open_bfd_pipe; ev
  | |- reload_bfd_thread _ _ _ = _ => unfold reload_bfd_thread; ev
  | |- start_bfd_child _ _ _ = _ => unfold start_bfd_child; ev
  | |- bfd_respawn_thread _ _ _ _ = _ => unfold bfd_respawn_thread; ev
  | |- ?l = _ => let l' := eval hnf in l in progress change l with l'; ev
  end.

(** [run_of t]: replace the run [t] in the goal by its result. *)
Ltac run_of t :=
  let E := fresh "E" in
  eassert (E : t = _) by ev;
  rewrite !E; clear E.

Ltac split_ifs :=
  repeat match goal with
         | |- context [if ?c then _ else _] => destruct c
         end.

(** ** Lists and histories *)

Lemma forallb_cons {A} (f : A -> bool) (a : A) (l : list A) :
  forallb f (a :: l) = f a && forallb f l.
Proof. reflexivity. Qed.

Lemma forallb_map {A B} (f : B -> bool) (h : A -> B) (l : list A) :
  forallb f (map h l) = forallb (fun a => f (h a)) l.
Proof. induction l as [|a l IH]; cbn; [reflexivity | now rewrite IH]. Qed.

Lemma existsb_cons {A} (p : A -> bool) (a : A) (l : list A) :
  existsb p (a :: l) = p a || existsb p l.
Proof. reflexivity. Qed.

Lemma existsb_map {A B} (p : B -> bool) (h : A -> B) (l : list A) :
  existsb p (map h l) = existsb (fun a => p (h a)) l.
Proof. induction l as [|a l IH]; cbn; [reflexivity | now rewrite IH]. Qed.

Lemma existsb_false_forallb {A} (p : A -> bool) (l : list A) :
  forallb (fun a => negb (p a)) l = true -> existsb p l = false.
Proof.
  induction l as [|a l IH]; cbn; [reflexivity|].
  intros H. apply andb_true_iff in H as [Ha Hl].
  apply negb_true_iff in Ha. now rewrite Ha, IH.
Qed.

Lemma from_first_app (p : event -> bool) (l1 l2 : hist) :
  forallb (fun s => negb (p (fst s))) l1 = true ->
  from_first p (l1 ++ l2) = from_first p l2.
Proof.
  induction l1 as [|s l1 IH]; cbn; [reflexivity|].
  intros H. apply andb_true_iff in H as [Hs Hl].
  apply negb_true_iff in Hs. rewrite Hs. now apply IH.
Qed.

Lemma before_first_app (p : event -> bool) (l1 l2 : hist) :
  forallb (fun s => negb (p (fst s))) l1 = true ->
  before_first p (l1 ++ l2) = l1 ++ before_first p l2.
Proof.
  induction l1 as [|s l1 IH]; cbn; [reflexivity|].
  intros H. apply andb_true_iff in H as [Hs Hl].
  apply negb_true_iff in Hs. rewrite Hs. now rewrite IH.
Qed.

Lemma events_after {R A} (t : hist) (r : res R A) :
  events (after t r) = map fst t ++ events r.
Proof. unfold events. destruct r; cbn; apply map_app. Qed.

Lemma events_bind {R A B} (m : M R A) (f : A -> M R B) (st : proc) :
  events (bind m f st)
  = events (m st) ++ match m st with
                     | Next a s _ => events (f a s)
                     | _ => []
                     end.
Proof.
  unfold bind. destruct (m st) as [a s t|v s t|c s t].
  - apply events_after.
  - symmetry. apply app_nil_r.
  - symmetry. apply app_nil_r.
Qed.

Lemma events_call {R R'} (body : M R' R') (st : proc) :
  events (@call R R' body st) = events (body st).
Proof. unfold call. now destruct (body st). Qed.

Lemma ends_with_app (p l suffix : list event) :
  ends_with l suffix -> ends_with (p ++ l) suffix.
Proof. intros [b ->]. exists (p ++ b). apply app_assoc. Qed.

Lemma hist_ends_with_cons (s : event * proc) (t suffix : hist) :
  hist_ends_with t suffix -> hist_ends_with (s :: t) suffix.
Proof. intros [b ->]. exists (s :: b). reflexivity. Qed.

Lemma hist_ends_with_app (p t suffix : hist) :
  hist_ends_with t suffix -> hist_ends_with (p ++ t) suffix.
Proof. intros [b ->]. exists (p ++ b). apply app_assoc. Qed.

Lemma hist_ends_with_refl (t : hist) : hist_ends_with t t.
Proof. exists []. reflexivity. Qed.

Lemma ends_with_events {R A} (r : res R A) (suffix : hist) :
  hist_ends_with (trace r) suffix -> ends_with (events r) (map fst suffix).
Proof.
  intros [b E]. exists (map fst b). unfold events. rewrite E. apply map_app.
Qed.

(** A property of every entry of a history that was computed by [ev]:
    entry by entry, piece by piece. *)
Ltac forallb_trace tac :=
  repeat first
    [ match goal with |- forallb _ [] = true => reflexivity end
    | rewrite forallb_app; apply andb_true_intro; split
    | rewrite forallb_cons; apply andb_true_intro; split; [tac |]
    | match goal with
      | |- forallb _ (if ?c then _ else _) = true => destruct c
      end ].

Ltac hist_end :=
  first [ apply hist_ends_with_refl
        | apply hist_ends_with_cons; hist_end
        | apply hist_ends_with_app; hist_end ].

Ltac quiet := split_ifs; reflexivity.

Ltac to_first :=
  repeat first
    [ progress cbn [before_first from_first fst is_UNSET_RELOAD]
    | rewrite from_first_app by quiet
    | rewrite before_first_app by quiet ].

Ltac find_event :=
  first
    [ rewrite existsb_cons; apply orb_true_iff; left; reflexivity
    | rewrite existsb_cons; apply orb_true_iff; right; find_event
    | rewrite existsb_app; apply orb_true_iff; right; find_event ].

(** ** Text of messages *)

Lemma contains_app_r (needle a b : string) :
  contains needle b = true -> contains needle (a ++ b)%string = true.
Proof.
  intros H. induction a as [|c a IH]; cbn [String.append]; [exact H|].
  cbn [contains]. rewrite IH. apply orb_true_r.
Qed.

Lemma lacks_app (c : ascii) (a b : string) :
  lacks c (a ++ b)%string = lacks c a && lacks c b.
Proof.
  induction a as [|x a IH]; cbn; [reflexivity|].
  rewrite IH. apply andb_assoc.
Qed.

Lemma lacks_contains (c : ascii) (n s : string) :
  lacks c s = true -> contains (String c n) s = false.
Proof.
  induction s as [|a s IH]; cbn [lacks contains String.prefix]; intros H.
  - reflexivity.
  - apply andb_true_iff in H as [Ha Hs].
    rewrite (IH Hs), orb_false_r.
    destruct (ascii_dec c a) as [->|_]; [|reflexivity].
    rewrite Ascii.eqb_refl in Ha. discriminate.
Qed.

Lemma lacks_R_uint (d : Decimal.uint) :
  lacks "R" (NilEmpty.string_of_uint d) = true.
Proof. induction d; cbn; auto. Qed.

Lemma lacks_R_dec (z : Z) : lacks "R" (dec z) = true.
Proof.
  unfold dec. destruct (Z.to_int z); cbn [NilEmpty.string_of_int].
  - apply lacks_R_uint.
  - cbn. apply lacks_R_uint.
Qed.

(** ** Live blocks *)

Lemma live_In (a : ptr) (st : proc) :
  live (Some a) st = true <-> In a (heap (w st)).
Proof.
  unfold live. rewrite existsb_exists. split.
  - intros (x & Hx & E). apply Z.eqb_eq in E. now subst.
  - intros H. exists a. split; [exact H | apply Z.eqb_refl].
Qed.

Lemma live_intro (a : ptr) (st : proc) :
  In a (heap (w st)) -> live (Some a) st = true.
Proof. apply live_In. Qed.

Lemma live_false (a : ptr) (st : proc) :
  ~ In a (heap (w st)) -> live (Some a) st = false.
Proof.
  intros Hn. destruct (live (Some a) st) eqn:E; [|reflexivity].
  apply live_In in E. contradiction.
Qed.

Lemma running_facts (st : proc) :
  running st = true <->
  exists m c d b,
    master (g st) = Some m /\ global_data (g st) = Some c /\
    bfd_data (g st) = Some d /\ bfd_buffer (w st) = Some b /\
    In m (heap (w st)) /\ In c (heap (w st)) /\
    In d (heap (w st)) /\ In b (heap (w st)) /\
    m <> c /\ m <> d /\ m <> b /\ c <> d /\ c <> b /\ d <> b /\
    (forall a, In a (heap (w st)) -> a < brk (w st)).
Proof.
  unfold running. split.
  - intros H.
    repeat (apply andb_true_iff in H; destruct H as [H ?]).
    destruct (master (g st)) as [m|]; [|discriminate].
    destruct (global_data (g st)) as [c|]; [|discriminate].
    destruct (bfd_data (g st)) as [d|]; [|discriminate].
    destruct (bfd_buffer (w st)) as [b|]; [|discriminate].
    exists m, c, d, b.
    repeat match goal with
           | H : live (Some _) _ = true |- _ => apply live_In in H
           end.
    cbn [distinct existsb] in *.
    repeat match goal with
           | H : _ && _ = true |- _ => apply andb_true_iff in H; destruct H
           | H : negb _ = true |- _ => apply negb_true_iff in H
           | H : _ || _ = false |- _ => apply orb_false_iff in H; destruct H
           | H : (_ =? _) = false |- _ => apply Z.eqb_neq in H
           end.
    repeat split; try assumption.
    intros a Ha.
    match goal with
    | H : forallb _ _ = true |- _ =>
        rewrite forallb_forall in H; apply H in Ha; now apply Z.ltb_lt in Ha
    end.
  - intros (m & c & d & b & -> & -> & -> & -> & Hm & Hc & Hd & Hb
            & Hmc & Hmd & Hmb & Hcd & Hcb & Hdb & Hbrk).
    apply live_In in Hm, Hc, Hd, Hb. rewrite Hm, Hc, Hd, Hb.
    cbn [distinct existsb andb orb].
    apply Z.eqb_neq in Hmc, Hmd, Hmb, Hcd, Hcb, Hdb.
    rewrite Hmc, Hmd, Hmb, Hcd, Hcb, Hdb. cbn [negb andb orb].
    apply forallb_forall. intros a Ha. apply Z.ltb_lt. now apply Hbrk.
Qed.

(** Membership in a heap that went through allocations and releases;
    [Em] ... [Eb] give the four pointers of the state the run began in. *)
Ltac in_heap Em Ec Ed Eb :=
  cbn -[filter Z.eqb Z.add]; rewrite ?Em, ?Ec, ?Ed, ?Eb;
  repeat (rewrite filter_In || cbn [In]);
  rewrite ?negb_true_iff, ?Z.eqb_neq;
  solve [intuition (auto; lia)].

(** ** Runs of the sequences *)

Lemma sighup_bfd_run (st : proc) :
  sighup_bfd st
  = Next tt st [(e_thread_add_event (master (g st)) fn_reload_bfd_thread None, st)].
Proof. reflexivity. Qed.

Lemma sigend_bfd_run (st : proc) :
  sigend_bfd st
  = Next tt st (if is_some (master (g st))
                then [(e_thread_add_terminate_event (master (g st)), st)]
                else []).
Proof.
  unfold sigend_bfd, bind, gv. destruct (master (g st)); reflexivity.
Qed.

Lemma stop_bfd_run (cfg : config) (status : Z) (st : proc) :
  events (stop_bfd cfg status st) = stop_bfd_events cfg status st /\
  exit_status (stop_bfd cfg status st) = Some status.
Proof.
  run_of (stop_bfd cfg status st). unfold stop_bfd_events.
  split; [|reflexivity].
  split_ifs; reflexivity.
Qed.

Lemma start_bfd_acquires (cfg : config) (os : oracle) (st : proc) :
  acquisition_order (events (start_bfd cfg os st))
  = if alloc_bfd_data_ok os then [r_global_data; r_bfd_data; r_bfd_buffer]
    else [r_global_data].
Proof.
  run_of (start_bfd cfg os st).
  split_ifs; reflexivity.
Qed.

Lemma reload_run (cfg : config) (os : oracle) (st : proc) :
  alloc_bfd_data_ok os = true ->
  events (reload_bfd_thread cfg os st) = reload_events cfg os st.
Proof.
  intros Hok. unfold reload_bfd_thread, start_bfd. rewrite Hok.
  match goal with |- events ?t = _ => run_of t end.
  unfold reload_events, events, __test_bit. calc.
  split_ifs; reflexivity.
Qed.

Lemma reload_ends_running (cfg : config) (os : oracle) (st : proc) :
  alloc_bfd_data_ok os = true ->
  running st = true ->
  running (final (reload_bfd_thread cfg os st)) = true.
Proof.
  intros Hok Hrun.
  destruct (proj1 (running_facts st) Hrun)
    as (m & c & d & b & Em & Ec & Ed & Eb & Hm & Hc & Hd & Hb
        & Hmc & Hmd & Hmb & Hcd & Hcb & Hdb & Hbrk).
  pose proof (Hbrk _ Hm). pose proof (Hbrk _ Hc).
  pose proof (Hbrk _ Hd). pose proof (Hbrk _ Hb).
  unfold reload_bfd_thread, start_bfd. rewrite Hok.
  match goal with |- context [final ?t] => run_of t end.
  cbn [final]. apply running_facts.
  exists (brk (w st)), (brk (w st) + 1), (brk (w st) + 1 + 1),
    (brk (w st) + 1 + 1 + 1).
  repeat match goal with |- _ /\ _ => split end;
    try reflexivity; try lia; try in_heap Em Ec Ed Eb.
  intros a. cbn -[filter Z.eqb Z.add]. rewrite ?Em, ?Ec, ?Ed, ?Eb.
  repeat (rewrite filter_In || cbn [In]).
  intros Ha.
  repeat match goal with
         | H : _ /\ _ |- _ => destruct H
         | H : _ \/ _ |- _ => destruct H
         end; subst; try lia.
  match goal with H : In a _ |- _ => apply Hbrk in H end. lia.
Qed.

Lemma start_bfd_child_enters (cfg : config) (os : oracle) (st : proc) :
  exists l, events (start_bfd_child cfg os st) = e_start_bfd_child :: l.
Proof.
  unfold start_bfd_child. rewrite events_bind. cbn. eexists. reflexivity.
Qed.

(** * The watchdog: [bfd_respawn_thread] *)

(** C1, as the code has it: for every notification delivered to
    [bfd_respawn_thread], a respawn (a call of [start_bfd_child]) is
    attempted if and only if [DONT_RESPAWN_BIT] is clear and the
    notification is not the [THREAD_CHILD_TIMEOUT] re-arm tick.  No state
    of the supervisor enters the decision. *)
Theorem respawn_iff_enabled_and_death (cfg : config) (os : oracle)
  (thread : thread_t) (st : proc) :
  respawn_attempted (bfd_respawn_thread cfg os thread st) = true <->
  (respawn_enabled cfg st = true /\ rearm_tick thread = false).
Proof.
  unfold respawn_attempted, respawn_enabled, rearm_tick, bfd_respawn_thread.
  rewrite events_bind.
  destruct (thread_type_eqb (type thread) THREAD_CHILD_TIMEOUT).
  - split; [discriminate | intros [_ H]; discriminate].
  - cbn [when ret events trace map app].
    rewrite events_bind. cbn [sv events trace map app].
    rewrite events_bind.
    destruct (__test_bit (DONT_RESPAWN_BIT cfg) (debug (cf st))); cbn [negb].
    + split; [discriminate | intros [H _]; discriminate].
    + split; [intros _; split; reflexivity | intros _].
      rewrite events_bind. cbn [log_message ext events trace map app fst].
      rewrite events_bind, events_call.
      destruct (start_bfd_child_enters cfg os st) as [l ->].
      reflexivity.
Qed.

(** C1, as stated, fails: with respawning enabled, a death notification
    that arrives while the supervisor is STOPPING still launches a new
    worker. *)
Lemma respawn_rule_of_spec_fails_when_stopping :
  ~ respawn_rule_of_spec sample_cfg sample_os_parent STOPPING sample_death
      (sample_supervisor 0).
Proof.
  unfold respawn_rule_of_spec. intros [H _].
  assert (Hr : respawn_attempted
                 (bfd_respawn_thread sample_cfg sample_os_parent sample_death
                    (sample_supervisor 0)) = true) by (vm_compute; reflexivity).
  destruct (H Hr) as (_ & _ & Hsup). apply Hsup. reflexivity.
Qed.

(** The calls of that run, in the supervisor. *)
Example respawn_of_sample_worker :
  events (bfd_respawn_thread sample_cfg sample_os_parent sample_death
            (sample_supervisor 0))
  = [e_log_message LOG_ALERT "BFD child process(%d) died: Respawning" [77];
     e_start_bfd_child;
     e_fork 78;
     e_log_message LOG_INFO "Starting BFD child process, pid=%d" [78];
     e_thread_add_child (Some 1) fn_bfd_respawn_thread 78 60000000].
Proof. reflexivity. Qed.

(** C7: when the worker died (the notification is not the re-arm tick)
    and [DONT_RESPAWN_BIT] is set, the watchdog logs one message, which
    contains "Exiting" and not "Respawning", raises SIGTERM on the
    supervisor and returns 0; [start_bfd_child] is not called; the
    supervisor then ends with a non-zero status. *)
Theorem respawn_disabled_exits (cfg : config) (os : oracle)
  (thread : thread_t) (st : proc) :
  rearm_tick thread = false ->
  respawn_enabled cfg st = false ->
  let pid := THREAD_CHILD_PID thread in
  let r := bfd_respawn_thread cfg os thread st in
  r = Returned 0 st
        [(e_log_message LOG_ALERT "BFD child process(%d) died: Exiting" [pid], st);
         (e_raise SIGTERM, st)] /\
  log_of r = [("BFD child process(" ++ dec pid ++ ") died: Exiting")%string] /\
  Forall (fun m => contains "Exiting" m = true /\ contains "Respawning" m = false)
         (log_of r) /\
  respawn_attempted r = false /\
  exists status, supervisor_terminate r = Some status /\ status <> 0.
Proof.
  intros Htick Hpol pid r.
  assert (Hr : r = Returned 0 st
        [(e_log_message LOG_ALERT "BFD child process(%d) died: Exiting" [pid], st);
         (e_raise SIGTERM, st)]).
  { unfold r, bfd_respawn_thread. unfold rearm_tick in Htick. rewrite Htick.
    unfold respawn_enabled in Hpol.
    unfold when, bind at 1. cbn [ret after app]. unfold bind at 1, sv at 1.
    cbn [after app]. rewrite Hpol. reflexivity. }
  split; [exact Hr|]. rewrite Hr. clear Hr r.
  assert (Hlog : log_of (@Returned Z Z 0 st
        [(e_log_message LOG_ALERT "BFD child process(%d) died: Exiting" [pid], st);
         (e_raise SIGTERM, st)])
      = [("BFD child process(" ++ dec pid ++ ") died: Exiting")%string])
    by reflexivity.
  split; [exact Hlog|]. rewrite Hlog.
  split; [|split; [reflexivity | exists EXIT_FAILURE; split; [reflexivity | discriminate]]].
  constructor; [|constructor]. split.
  - apply (contains_app_r "Exiting" "BFD child process(").
    apply contains_app_r. reflexivity.
  - apply lacks_contains. rewrite !lacks_app, lacks_R_dec. reflexivity.
Qed.

Lemma respawn_disabled_exits_witness :
  rearm_tick sample_death = false /\
  respawn_enabled sample_cfg (sample_supervisor 256) = false /\
  log_of (bfd_respawn_thread sample_cfg sample_os_parent sample_death
            (sample_supervisor 256))
  = ["BFD child process(77) died: Exiting"].
Proof.
  split; [reflexivity | split; [reflexivity|]].
  exact (proj1 (proj2 (respawn_disabled_exits sample_cfg sample_os_parent
                         sample_death (sample_supervisor 256) eq_refl eq_refl))).
Defined.

(** * Reload: [reload_bfd_thread] *)

(** C2, as the code has it: in a reload of a running worker whose
    [alloc_bfd_data] succeeds, the calls come in the order of
    [reload_events]: the previous [global_data] and the previous buffer
    are released before [start_bfd] allocates their replacements, while
    the previous [bfd_data] is kept (as [old_bfd_data]) until [start_bfd]
    has built the new runtime state and is released only then.  So at
    every point of the reload the [bfd_data] of the previous or of the new
    generation is live; at the end the new generation is live as a whole
    and the previous [bfd_data] is not. *)
Theorem reload_keeps_old_bfd_data (cfg : config) (os : oracle) (st : proc) :
  alloc_bfd_data_ok os = true ->
  running st = true ->
  let r := reload_bfd_thread cfg os st in
  let old := generation_of st in
  let new := generation_of (final r) in
  events r = reload_events cfg os st /\
  some_bfd_data_live old new r = true /\
  generation_live new (final r) = true /\
  live (gen_bfd_data old) (final r) = false.
Proof.
  intros Hok Hrun r old new.
  split; [apply reload_run, Hok|].
  destruct (proj1 (running_facts st) Hrun)
    as (m & c & d & b & Em & Ec & Ed & Eb & Hm & Hc & Hd & Hb
        & Hmc & Hmd & Hmb & Hcd & Hcb & Hdb & Hbrk).
  pose proof (Hbrk _ Hm). pose proof (Hbrk _ Hc).
  pose proof (Hbrk _ Hd). pose proof (Hbrk _ Hb).
  unfold some_bfd_data_live, new, old, r, reload_bfd_thread, start_bfd.
  rewrite Hok.
  match goal with |- context [trace ?t] => run_of t end.
  cbn [trace final]. unfold generation_live, generation_of.
  cbn [gen_global_data gen_bfd_data gen_bfd_buffer].
  cbn [g w bfd_data global_data bfd_buffer set_world set_bfd_data
       set_global_data set_master set_old_bfd_data set_reload
       with_bfd_buffer with_heap with_sigtab heap_alloc heap_free brk].
  rewrite Ed.
  split; [|split].
  - forallb_trace
      ltac:(apply orb_true_iff;
            first [ left; apply live_intro; in_heap Em Ec Ed Eb
                  | right; apply live_intro; in_heap Em Ec Ed Eb ]).
  - rewrite !andb_true_iff. repeat split; apply live_intro; in_heap Em Ec Ed Eb.
  - apply live_false. in_heap Em Ec Ed Eb.
Qed.

Lemma reload_keeps_old_bfd_data_witness :
  alloc_bfd_data_ok sample_os = true /\
  running sample_worker = true /\
  some_bfd_data_live (generation_of sample_worker)
    (generation_of (final (reload_bfd_thread sample_cfg sample_os sample_worker)))
    (reload_bfd_thread sample_cfg sample_os sample_worker) = true.
Proof.
  split; [reflexivity | split; [reflexivity|]].
  exact (proj1 (proj2 (reload_keeps_old_bfd_data sample_cfg sample_os
                         sample_worker eq_refl eq_refl))).
Defined.

(** C2, as stated, fails: in the reload of the sample worker there are
    points at which neither the previous nor the new generation of the
    runtime state is live as a whole ([global_data] and the buffer of the
    previous generation are gone before the new ones exist). *)
Lemma reload_generations_of_spec_fails :
  ~ reload_generations_of_spec sample_cfg sample_os sample_worker.
Proof.
  unfold reload_generations_of_spec. vm_compute. discriminate.
Qed.

(** C6, on the code: whatever the inputs, [reload_bfd_thread] registers
    one handler after it destroyed the signal routing, the SIGCHLD
    handler on the new run loop; [bfd_signal_init] is not called again.
    When the reload is over the routing table has no entry for SIGHUP,
    SIGINT, SIGTERM or SIGPIPE: the handlers of the worker are not all
    established. *)
Theorem reload_drops_signal_handlers (cfg : config) (os : oracle) (st : proc) :
  let r := reload_bfd_thread cfg os st in
  let st' := final r in
  filter registers_signal (events r)
  = [e_signal_set SIGCHLD fn_thread_child_handler (Some (brk (w st)))] /\
  sig_lookup SIGHUP (sigtab (w st')) = None /\
  sig_lookup SIGINT (sigtab (w st')) = None /\
  sig_lookup SIGTERM (sigtab (w st')) = None /\
  sig_lookup SIGPIPE (sigtab (w st')) = None /\
  handlers_established (master (g st')) st' = false.
Proof.
  intros r st'. unfold st', r, events, handlers_established.
  run_of (reload_bfd_thread cfg os st).
  destruct (alloc_bfd_data_ok os); cbn [trace final].
  all: split; [split_ifs; reflexivity | repeat split; split_ifs; reflexivity].
Qed.

(** The handlers the sample worker had before a reload are gone after it. *)
Example reload_of_sample_worker_loses_handlers :
  deliver SIGTERM sample_worker
  = Some (Next tt sample_worker
            [(e_thread_add_terminate_event (Some 1), sample_worker)]) /\
  deliver SIGTERM (final (reload_bfd_thread sample_cfg sample_os sample_worker))
  = None.
Proof. split; reflexivity. Qed.

(** C8: a reload of a running worker whose [alloc_bfd_data] succeeds
    calls neither [pidfile_write] nor [pidfile_rm]; the pidfile holds the
    same process id at every point of the reload and after it; the last
    message logged is the elapsed-time line; the function returns 0, the
    process does not exit, the worker is running again and the reloading
    flag is cleared. *)
Theorem reload_keeps_identity (cfg : config) (os : oracle) (st : proc) :
  alloc_bfd_data_ok os = true ->
  running st = true ->
  let r := reload_bfd_thread cfg os st in
  let elapsed := timer_sub_now_ret os (timer_now_ret os) in
  existsb touches_pidfile (events r) = false /\
  Forall (fun s => pidfile (w (snd s)) = pidfile (w st)) (trace r) /\
  pidfile (w (final r)) = pidfile (w st) /\
  ends_with (events r)
    [e_UNSET_RELOAD;
     e_log_message LOG_INFO "Reload finished in %li usec" [elapsed]] /\
  last (log_of r) "" = ("Reload finished in " ++ dec elapsed ++ " usec")%string /\
  returned r = Some 0 /\
  exit_status r = None /\
  running (final r) = true /\
  reload (g (final r)) = false.
Proof.
  intros Hok Hrun r elapsed.
  assert (Hev : events r = reload_events cfg os st) by (apply reload_run, Hok).
  assert (Hup : running (final r) = true) by (apply reload_ends_running; assumption).
  unfold log_of. rewrite Hev.
  split; [unfold reload_events; split_ifs; reflexivity|].
  assert (Hrest :
    Forall (fun s => pidfile (w (snd s)) = pidfile (w st)) (trace r) /\
    pidfile (w (final r)) = pidfile (w st) /\
    returned r = Some 0 /\ exit_status r = None /\ reload (g (final r)) = false).
  { clear Hev Hup. unfold r, reload_bfd_thread, start_bfd. rewrite Hok.
    match goal with |- context [trace ?t] => run_of t end.
    cbn [trace final returned exit_status].
    split; [|repeat split].
    repeat first
      [ apply Forall_nil
      | apply Forall_cons; [reflexivity |]
      | apply Forall_app; split
      | match goal with |- Forall _ (if ?c then _ else _) => destruct c end ]. }
  destruct Hrest as (H1 & H2 & H3 & H4 & H5).
  split; [exact H1|]. split; [exact H2|].
  split; [|split; [|split; [exact H3|split; [exact H4|split; [exact Hup|exact H5]]]]].
  - unfold reload_events.
    do 2 apply ends_with_app. eexists [_; _]. reflexivity.
  - unfold reload_events. split_ifs; reflexivity.
Qed.

Lemma reload_keeps_identity_witness :
  alloc_bfd_data_ok sample_os = true /\
  running sample_worker = true /\
  pidfile (w sample_worker) = Some 4242 /\
  pidfile (w (final (reload_bfd_thread sample_cfg sample_os sample_worker)))
  = pidfile (w sample_worker).
Proof.
  split; [reflexivity | split; [reflexivity | split; [reflexivity|]]].
  exact (proj1 (proj2 (proj2 (reload_keeps_identity sample_cfg sample_os
                                sample_worker eq_refl eq_refl)))).
Defined.

(** * Start of the worker: [start_bfd_child] *)

(** C3: in the child of the fork (a build without [_DEBUG_]), when the
    first [pidfile_write] fails the process logs "cannot write pidfile"
    and exits with status 0; these are its last calls, no
    [thread_make_master] precedes them, and the pidfile is as it was. *)
Theorem pidfile_failure_exits_before_run_loop
  (cfg : config) (os : oracle) (st : proc) :
  _DEBUG_ cfg = false ->
  fork_ret os = 0 ->
  pidfile_write_ret os = false ->
  let r := start_bfd_child cfg os st in
  exit_status r = Some 0 /\
  ends_with (events r)
    [e_pidfile_write (bfd_pidfile (cf st)) (getpid_ret os) false;
     e_log_message LOG_INFO "BFD child process: cannot write pidfile" [];
     e_exit 0] /\
  existsb is_thread_make_master (events r) = false /\
  pidfile (w (final r)) = pidfile (w st).
Proof.
  intros Hd Hf Hp r. unfold r, start_bfd_child. rewrite Hd, Hf, Hp.
  match goal with |- context [exit_status ?t] => run_of t end.
  match goal with
  | |- context [exit_status (if ?c then _ else _)] => destruct c
  end.
  all: split; [reflexivity|]; split; [|split; [|reflexivity]].
  all: try (match goal with
            | |- ends_with (events ?r) _ =>
                refine (ends_with_events r [(_, _); (_, _); (_, _)] _)
            end; cbn [trace]; hist_end).
  all: apply existsb_false_forallb; unfold events; rewrite forallb_map;
    cbn [trace]; forallb_trace reflexivity.
Qed.

Lemma pidfile_failure_exits_before_run_loop_witness :
  _DEBUG_ sample_cfg = false /\
  fork_ret sample_os_pidfile_fails = 0 /\
  pidfile_write_ret sample_os_pidfile_fails = false /\
  exit_status (start_bfd_child sample_cfg sample_os_pidfile_fails
                 (sample_supervisor 0)) = Some 0 /\
  existsb is_thread_make_master
    (events (start_bfd_child sample_cfg sample_os_pidfile_fails
               (sample_supervisor 0))) = false.
Proof.
  split; [reflexivity | split; [reflexivity | split; [reflexivity|]]].
  pose proof (pidfile_failure_exits_before_run_loop sample_cfg
                sample_os_pidfile_fails (sample_supervisor 0)
                eq_refl eq_refl eq_refl) as H.
  split; [exact (proj1 H) | exact (proj1 (proj2 (proj2 H)))].
Defined.

(** C10: in every run of [start_bfd_child], from any state (the
    reloading flag may be set), no call of [bfd_signal_init] or
    [start_bfd] comes before [UNSET_RELOAD], and from [UNSET_RELOAD] on
    the reloading flag is clear at every point of the run.  Where
    [start_bfd_child] goes on as the worker, [UNSET_RELOAD] and the signal
    initialisation do take place; where it does not (parent, failed fork,
    failed pidfile), nothing of [bfd_signal_init] and [start_bfd] runs. *)
Theorem worker_starts_with_reload_cleared
  (cfg : config) (os : oracle) (st : proc) :
  let r := start_bfd_child cfg os st in
  existsb starts_worker (map fst (before_first is_UNSET_RELOAD (trace r))) = false /\
  forallb reload_clear (from_first is_UNSET_RELOAD (trace r)) = true /\
  (if worker_path cfg os
   then existsb is_UNSET_RELOAD (events r)
        && existsb is_signal_handler_init (events r)
   else negb (existsb starts_worker (events r))) = true.
Proof.
  intros r. unfold r, worker_path, events.
  run_of (start_bfd_child cfg os st).
  destruct (_DEBUG_ cfg); cbn [negb orb].
  2: destruct (fork_ret os <? 0) eqn:Elt;
     [| destruct (fork_ret os =? 0) eqn:Eeq; cbn [negb andb];
        [ destruct (pidfile_write_ret os); cbn [negb] |] ].
  all: repeat match goal with
         | |- context [trace (if ?c then _ else _)] => destruct c
         end.
  all: cbn [trace].
  all: try (apply Z.ltb_lt in Elt; destruct (Z.eqb_spec (fork_ret os) 0);
            [lia|]; cbn [andb]).
  all: split; [|split].
  all: to_first.
  all: lazymatch goal with
       | |- existsb _ _ = false =>
           apply existsb_false_forallb; rewrite forallb_map;
           forallb_trace reflexivity
       | |- forallb _ _ = true => forallb_trace reflexivity
       | |- _ && _ = true =>
           apply andb_true_intro; split; rewrite existsb_map; find_event
       | |- negb _ = true =>
           apply negb_true_iff, existsb_false_forallb; rewrite forallb_map;
           forallb_trace reflexivity
       end.
Qed.

(** A worker forked by a supervisor whose reloading flag is set: the
    flag is set when [start_bfd_child] is entered and clear when the
    signal handlers are initialised. *)
Example respawned_worker_clears_reload :
  let h := trace (start_bfd_child sample_cfg sample_os (sample_supervisor 0)) in
  map reload_clear (firstn 1 h) = [false] /\
  map reload_clear (firstn 1 (from_first is_signal_handler_init h)) = [true].
Proof. split; reflexivity. Qed.

(** After it rebuilt the run loop, [start_bfd_child] registers the
    handlers of [bfd_signal_init] again. *)
Lemma start_bfd_child_registers_handlers :
  filter registers_signal
    (map fst (from_first is_thread_make_master
                (trace (start_bfd_child sample_cfg sample_os (sample_supervisor 0)))))
  = [e_signal_set SIGHUP fn_sighup_bfd None;
     e_signal_set SIGINT fn_sigend_bfd None;
     e_signal_set SIGTERM fn_sigend_bfd None;
     e_signal_ignore SIGPIPE].
Proof. reflexivity. Qed.

(** * Stop: [stop_bfd] *)

(** C4, as the code has it: [stop_bfd(status)] makes the calls of
    [stop_bfd_events] in that order: signal routing is unregistered, the
    pidfile is removed, the runtime state is released, the run loop is
    destroyed, the log file, the syslog channel and the syslog identifier
    are released, the standard descriptors are closed and the process
    exits with [status].  The runtime state is released in the order
    configuration store, protocol-engine data, buffers, which is the
    order in which [start_bfd] acquires it, not the reverse. *)
Theorem stop_bfd_sequence (cfg : config) (os : oracle) (status : Z)
  (st1 st : proc) :
  events (stop_bfd cfg status st) = stop_bfd_events cfg status st /\
  stop_steps (events (stop_bfd cfg status st)) = stop_steps_of_spec /\
  exit_status (stop_bfd cfg status st) = Some status /\
  release_order (events (stop_bfd cfg status st))
  = [r_global_data; r_bfd_data; r_bfd_buffer] /\
  acquisition_order (events (start_bfd cfg os st1))
  = (if alloc_bfd_data_ok os then [r_global_data; r_bfd_data; r_bfd_buffer]
     else [r_global_data]).
Proof.
  destruct (stop_bfd_run cfg status st) as [Hev Hex].
  rewrite Hev. unfold stop_bfd_events.
  repeat split.
  - split_ifs; reflexivity.
  - exact Hex.
  - split_ifs; reflexivity.
  - apply start_bfd_acquires.
Qed.

(** C4, as stated, fails: the worker that [start_bfd] brought up releases
    its runtime state in the order of acquisition. *)
Lemma stop_sequence_of_spec_fails :
  ~ stop_sequence_of_spec sample_cfg sample_os 0 sample_worker sample_worker.
Proof.
  unfold stop_sequence_of_spec. intros (_ & _ & H).
  vm_compute in H. discriminate H.
Qed.

(** * Signals *)

(** C5: [bfd_signal_init] installs [sighup_bfd] for SIGHUP,
    [sigend_bfd] for SIGINT and SIGTERM and ignores SIGPIPE.  Delivered
    afterwards, SIGHUP enqueues [reload_bfd_thread] on the run loop,
    SIGINT and SIGTERM enqueue a terminate event on the run loop (when
    there is one), SIGPIPE does nothing; each handler returns to the next
    statement and leaves the process state as it found it. *)
Theorem bfd_signal_handlers_only_enqueue (st : proc) :
  let st1 := final (bfd_signal_init st) in
  let enqueue_terminate :=
    if is_some (master (g st1))
    then [(e_thread_add_terminate_event (master (g st1)), st1)]
    else [] in
  filter registers_signal (events (bfd_signal_init st))
  = [e_signal_set SIGHUP fn_sighup_bfd None;
     e_signal_set SIGINT fn_sigend_bfd None;
     e_signal_set SIGTERM fn_sigend_bfd None;
     e_signal_ignore SIGPIPE] /\
  sig_lookup SIGHUP (sigtab (w st1)) = Some (Handler fn_sighup_bfd None) /\
  sig_lookup SIGINT (sigtab (w st1)) = Some (Handler fn_sigend_bfd None) /\
  sig_lookup SIGTERM (sigtab (w st1)) = Some (Handler fn_sigend_bfd None) /\
  sig_lookup SIGPIPE (sigtab (w st1)) = Some Ignored /\
  deliver SIGHUP st1
  = Some (Next tt st1
            [(e_thread_add_event (master (g st1)) fn_reload_bfd_thread None, st1)]) /\
  deliver SIGINT st1 = Some (Next tt st1 enqueue_terminate) /\
  deliver SIGTERM st1 = Some (Next tt st1 enqueue_terminate) /\
  deliver SIGPIPE st1 = Some (Next tt st1 []).
Proof.
  intros st1 enqueue_terminate.
  assert (Hup : sig_lookup SIGHUP (sigtab (w st1)) = Some (Handler fn_sighup_bfd None))
    by reflexivity.
  assert (Hint : sig_lookup SIGINT (sigtab (w st1)) = Some (Handler fn_sigend_bfd None))
    by reflexivity.
  assert (Hterm : sig_lookup SIGTERM (sigtab (w st1)) = Some (Handler fn_sigend_bfd None))
    by reflexivity.
  assert (Hpipe : sig_lookup SIGPIPE (sigtab (w st1)) = Some Ignored)
    by reflexivity.
  split; [reflexivity|].
  split; [exact Hup|]. split; [exact Hint|]. split; [exact Hterm|].
  split; [exact Hpipe|].
  unfold deliver. rewrite Hup, Hint, Hterm, Hpipe. cbn [handler_body].
  rewrite sighup_bfd_run, sigend_bfd_run. repeat split; reflexivity.
Qed.

(** C9: without a run loop ([master] is NULL) [sigend_bfd] makes no call
    at all, in particular it queues no terminate event, and leaves the
    process state as it is. *)
Theorem sigend_bfd_without_master (st : proc) :
  master (g st) = None -> sigend_bfd st = Next tt st [].
Proof.
  intros H. unfold sigend_bfd, bind, gv. rewrite H. reflexivity.
Qed.

Lemma sigend_bfd_without_master_witness :
  master (g sample_no_master) = None /\
  sigend_bfd sample_no_master = Next tt sample_no_master [].
Proof.
  split; [reflexivity | apply sigend_bfd_without_master; reflexivity].
Defined.

(** * Further properties of the functions *)

(** ** Reading a computed history *)

Lemma collect_skip {X} (f : event -> option X) (s : event * proc) (h : hist) r :
  f (fst s) = None -> collect f h = r -> collect f (s :: h) = r.
Proof. unfold collect. cbn [map filter_some]. now intros -> ->. Qed.

Lemma collect_take {X} (f : event -> option X) (s : event * proc) (h : hist) v r :
  f (fst s) = Some v -> collect f h = r -> collect f (s :: h) = v :: r.
Proof. unfold collect. cbn [map filter_some]. now intros -> ->. Qed.

Lemma collect_app {X} (f : event -> option X) (h1 h2 : hist) r1 r2 :
  collect f h1 = r1 -> collect f h2 = r2 -> collect f (h1 ++ h2) = r1 ++ r2.
Proof.
  intros <- <-. unfold collect. rewrite !map_app.
  induction (map f (map fst h1)) as [|[x|] l IH]; cbn; [reflexivity| |exact IH].
  now rewrite IH.
Qed.

Lemma collect_if_same {X} (f : event -> option X) (c : bool) (h1 h2 : hist) r :
  collect f h1 = r -> collect f h2 = r -> collect f (if c then h1 else h2) = r.
Proof. now destruct c. Qed.

Lemma collect_if {X} (f : event -> option X) (c : bool) (h1 h2 : hist) r1 r2 :
  collect f h1 = r1 -> collect f h2 = r2 ->
  collect f (if c then h1 else h2) = if c then r1 else r2.
Proof. now destruct c. Qed.

Lemma filter_collect (p : event -> bool) (h : hist) :
  filter p (map fst h) = collect (fun e => if p e then Some e else None) h.
Proof.
  unfold collect. induction h as [|[e s] h IH]; cbn; [reflexivity|].
  destruct (p e); cbn; now rewrite IH.
Qed.

(** Reads a history that was computed by [ev], piece by piece. *)
Ltac collect_ev :=
  lazymatch goal with
  | |- collect _ [] = _ => exact (eq_refl [])
  | |- collect _ (_ :: _) = _ =>
      first [ eapply collect_skip; [reflexivity | collect_ev]
            | eapply collect_take; [reflexivity | collect_ev] ]
  | |- collect _ (_ ++ _) = _ => eapply collect_app; [collect_ev | collect_ev]
  | |- collect _ (if _ then _ else _) = _ =>
      first [ eapply collect_if_same; [collect_ev | collect_ev]
            | eapply collect_if; [collect_ev | collect_ev] ]
  end.

Ltac collected :=
  match goal with
  | |- context [collect ?f ?h] =>
      let E := fresh "E" in
      eassert (E : collect f h = _) by collect_ev;
      rewrite E; clear E; cbn [app fst]; rewrite ?app_nil_r
  end.

(** The ways a run can end, one goal each. *)
Ltac split_trace :=
  repeat match goal with
         | |- context [trace (if ?c then _ else _)] => destruct c
         end;
  cbn [trace].

Ltac split_result :=
  repeat match goal with
         | |- context [falls_through (if ?c then _ else _)] => destruct c
         | |- context [returned (if ?c then _ else _)] => destruct c
         | |- context [exit_status (if ?c then _ else _)] => destruct c
         | |- context [trace (if ?c then _ else _)] => destruct c
         | |- context [final (if ?c then _ else _)] => destruct c
         end.

Ltac to_first_of p :=
  repeat first
    [ progress cbn [from_first fst p]
    | rewrite from_first_app by (split_ifs; reflexivity) ].

Ltac split_options :=
  repeat match goal with
         | |- context [match ?x with Some _ => _ | None => _ end] => destruct x
         end.

(** Membership in a heap built by allocations and releases. *)
Ltac heap_mem :=
  cbn -[filter Z.eqb Z.add]; split_options;
  repeat (rewrite filter_In || cbn [In]);
  rewrite ?negb_true_iff, ?Z.eqb_neq.

Lemma land_lor_same (a b : Z) : Z.land (Z.lor a b) a = a.
Proof.
  apply Z.bits_inj'. intros i _.
  rewrite Z.land_spec, Z.lor_spec.
  destruct (Z.testbit a i), (Z.testbit b i); reflexivity.
Qed.

Lemma land_lor_same_r (a b : Z) : Z.land (Z.lor a b) b = b.
Proof. rewrite Z.lor_comm. apply land_lor_same. Qed.

(** ** Use of blocks *)

Lemma uses_live_cons (prev : proc) (s : event * proc) (h : hist) :
  forallb (fun p => live_or_null p prev) (uses (fst s)) = true ->
  uses_live (snd s) h = true ->
  uses_live prev (s :: h) = true.
Proof. intros H1 H2. cbn [uses_live]. now rewrite H1, H2. Qed.

Lemma uses_live_heap (p1 p2 : proc) (h : hist) :
  heap (w p1) = heap (w p2) -> uses_live p1 h = uses_live p2 h.
Proof.
  intros E. destruct h as [|s h]; cbn [uses_live]; [reflexivity|].
  f_equal. induction (uses (fst s)) as [|[a|] l IH]; cbn [forallb live_or_null];
    [reflexivity | | exact IH].
  unfold live. now rewrite E, IH.
Qed.

(** Calls that leave the heap alone can be stepped over as one piece. *)
Lemma uses_live_app_quiet (prev : proc) (a b : hist) :
  Forall (fun s => heap (w (snd s)) = heap (w prev)) a ->
  uses_live prev a = true ->
  uses_live prev b = true ->
  uses_live prev (a ++ b) = true.
Proof.
  intros Hq. revert prev Hq.
  induction a as [|s a IH]; intros prev Hq; cbn [app uses_live]; [auto|].
  inversion Hq as [|s' a' Hs Hq']; subst.
  intros Ha Hb. apply andb_true_iff in Ha as [H1 H2].
  rewrite H1. cbn [andb]. apply IH.
  - eapply Forall_impl; [|exact Hq']. intros x Hx. cbn beta in Hx |- *. congruence.
  - exact H2.
  - rewrite (uses_live_heap _ prev); [exact Hb | exact Hs].
Qed.

Ltac quiet_pieces :=
  repeat first
    [ apply Forall_nil
    | apply Forall_cons; [reflexivity|]
    | match goal with |- Forall _ (if ?c then _ else _) => destruct c end ].

Ltac uses_live_walk tac :=
  repeat first
    [ match goal with |- uses_live _ [] = true => reflexivity end
    | apply uses_live_cons;
      [ cbn [fst uses forallb live_or_null];
        repeat (apply andb_true_intro; split); try reflexivity; tac
      | cbn [snd] ]
    | rewrite <- app_assoc
    | rewrite <- app_comm_cons
    | match goal with
      | |- uses_live _ ((if ?c then _ else _) ++ _) = true =>
          apply uses_live_app_quiet; [ solve [quiet_pieces] | destruct c | ]
      | |- uses_live _ (if ?c then _ else _) = true => destruct c
      end ].

(** The final state of a reload whose [alloc_bfd_data] succeeds. *)
Lemma reload_final_frame (cfg : config) (os : oracle) (st : proc) :
  alloc_bfd_data_ok os = true ->
  let st' := final (reload_bfd_thread cfg os st) in
  let b := brk (w st) in
  cf st' = cf st /\
  pidfile (w st') = pidfile (w st) /\
  brk (w st') = b + 1 + 1 + 1 + 1 /\
  runtime_blocks st' = [Some b; Some (b + 1); Some (b + 1 + 1); Some (b + 1 + 1 + 1)] /\
  old_bfd_data (g st') = bfd_data (g st) /\
  reload (g st') = false /\
  sigtab (w st') = [(SIGCHLD, Handler fn_thread_child_handler (Some b))] /\
  bfd_child (g st') = bfd_child (g st) /\
  prog_type (g st') = prog_type (g st) /\
  bfd_syslog_ident (g st') = bfd_syslog_ident (g st) /\
  bfd_event_pipe (g st') = bfd_event_pipe (g st).
Proof.
  intros Hok st' b. unfold st', b, reload_bfd_thread, start_bfd. rewrite Hok.
  match goal with |- context [final ?t] => run_of t end.
  cbn [final]. repeat split.
Qed.

(** * The event pipe: [open_bfd_pipe] *)

(** X1: when [pipe] fails, [open_bfd_pipe] logs the error, asks the
    supervisor to stop ([stop_keepalived]) and returns; it makes no
    [fcntl] call and leaves [bfd_event_pipe] and the rest of the process
    state as they were. *)
Theorem open_bfd_pipe_failure (os : oracle) (st : proc) :
  pipe_ret os = None ->
  open_bfd_pipe os st
  = Returned tt st
      [(e_pipe None, st);
       (e_log_message LOG_ERR "Unable to create BFD event pipe: %m" [], st);
       (e_stop_keepalived, st)].
Proof.
  intros H. unfold open_bfd_pipe. rewrite H.
  match goal with |- ?t = _ => run_of t end. reflexivity.
Qed.

Lemma open_bfd_pipe_failure_witness :
  pipe_ret sample_os_no_pipe = None /\
  final (open_bfd_pipe sample_os_no_pipe sample_worker) = sample_worker.
Proof.
  split; [reflexivity|].
  rewrite (open_bfd_pipe_failure sample_os_no_pipe sample_worker eq_refl).
  reflexivity.
Defined.

(** X2: when [pipe] succeeds with the descriptors [(rd, wr)],
    [open_bfd_pipe] stores them in [bfd_event_pipe] and sets the flags of
    each end, the read end first, in one get-then-set pair per end.  The
    flags it sets contain [O_NONBLOCK] and every flag the descriptor had
    (whatever [F_GETFL] returned); nothing else of the process state
    changes and the function runs to its end. *)
Theorem open_bfd_pipe_nonblocking (os : oracle) (st : proc) (rd wr : Z) :
  pipe_ret os = Some (rd, wr) ->
  let r := open_bfd_pipe os st in
  events r
  = [e_pipe (Some (rd, wr));
     e_fcntl_getfl rd (fcntl_getfl os rd);
     e_fcntl_setfl rd (Z.lor O_NONBLOCK (fcntl_getfl os rd));
     e_fcntl_getfl wr (fcntl_getfl os wr);
     e_fcntl_setfl wr (Z.lor O_NONBLOCK (fcntl_getfl os wr))] /\
  final r = set_bfd_event_pipe (rd, wr) st /\
  falls_through r = true /\
  map fst (collect setfl_args (trace r)) = [rd; wr] /\
  Forall (fun a => Z.land (snd a) O_NONBLOCK = O_NONBLOCK /\
                   Z.land (snd a) (fcntl_getfl os (fst a)) = fcntl_getfl os (fst a))
         (collect setfl_args (trace r)).
Proof.
  intros H r.
  assert (E : r = Next tt (set_bfd_event_pipe (rd, wr) st)
     [(e_pipe (Some (rd, wr)), st);
      (e_fcntl_getfl rd (fcntl_getfl os rd), set_bfd_event_pipe (rd, wr) st);
      (e_fcntl_setfl rd (Z.lor O_NONBLOCK (fcntl_getfl os rd)),
       set_bfd_event_pipe (rd, wr) st);
      (e_fcntl_getfl wr (fcntl_getfl os wr), set_bfd_event_pipe (rd, wr) st);
      (e_fcntl_setfl wr (Z.lor O_NONBLOCK (fcntl_getfl os wr)),
       set_bfd_event_pipe (rd, wr) st)]).
  { unfold r, open_bfd_pipe. rewrite H.
    match goal with |- ?t = _ => run_of t end. reflexivity. }
  rewrite E. split; [reflexivity|]. split; [reflexivity|].
  split; [reflexivity|]. split; [reflexivity|].
  unfold collect. cbn [trace map fst setfl_args filter_some].
  repeat constructor; cbn [fst snd];
    first [apply land_lor_same | apply land_lor_same_r].
Qed.

Lemma open_bfd_pipe_nonblocking_witness :
  pipe_ret sample_os = Some (3, 4) /\
  bfd_event_pipe (g sample_worker) = (-1, -1) /\
  bfd_event_pipe (g (final (open_bfd_pipe sample_os sample_worker))) = (3, 4).
Proof.
  split; [reflexivity|]. split; [reflexivity|].
  rewrite (proj1 (proj2 (open_bfd_pipe_nonblocking sample_os sample_worker 3 4
                           eq_refl))).
  reflexivity.
Defined.

(** * Bringing the runtime state up: [start_bfd] *)

(** X3: when [alloc_bfd_data] returns NULL, [start_bfd] runs the stop
    sequence with status [KEEPALIVED_EXIT_FATAL] and the process exits
    with it.  Nothing of the rest of the initialisation takes place (no
    buffer, no [init_data], no [bfd_complete_init], no dispatcher), and
    the configuration store allocated just before is released again by
    the stop sequence. *)
Theorem start_bfd_allocation_failure (cfg : config) (os : oracle) (st : proc) :
  alloc_bfd_data_ok os = false ->
  let r := start_bfd cfg os st in
  let b := brk (w st) in
  exit_status r = Some (KEEPALIVED_EXIT_FATAL cfg) /\
  events r
  = [e_srand; e_alloc_global_data b; e_alloc_bfd_data None]
    ++ stop_bfd_events cfg (KEEPALIVED_EXIT_FATAL cfg)
         (set_bfd_data None (set_global_data (Some b) st)) /\
  existsb builds_runtime (events r) = false /\
  live (Some b) (final r) = false.
Proof.
  intros Hok r b. unfold r, b, start_bfd. rewrite Hok.
  match goal with |- context [exit_status ?t] => run_of t end.
  split; [reflexivity|]. split; [|split].
  - unfold stop_bfd_events, events. calc. split_ifs; reflexivity.
  - unfold events. cbn [trace]. apply existsb_false_forallb.
    rewrite forallb_map. forallb_trace reflexivity.
  - apply live_false. heap_mem; intuition lia.
Qed.

Lemma start_bfd_allocation_failure_witness :
  alloc_bfd_data_ok sample_os_alloc_fails = false /\
  exit_status (start_bfd sample_cfg sample_os_alloc_fails (sample_supervisor 0))
  = Some (KEEPALIVED_EXIT_FATAL sample_cfg).
Proof.
  split; [reflexivity|].
  exact (proj1 (start_bfd_allocation_failure sample_cfg sample_os_alloc_fails
                  (sample_supervisor 0) eq_refl)).
Defined.

(** X4: in a process that has its run loop, a [start_bfd] whose
    [alloc_bfd_data] succeeds makes the calls of [start_bfd_events] in
    that order and returns with the worker up: configuration store,
    protocol-engine data and buffer are three fresh blocks (none of them
    was live before), the run loop is the one it found, and every block
    that was live before is still live. *)
Theorem start_bfd_brings_up (cfg : config) (os : oracle) (st : proc) :
  alloc_bfd_data_ok os = true ->
  loop_ready st = true ->
  let r := start_bfd cfg os st in
  exit_status r = None /\
  events r = start_bfd_events cfg st /\
  running (final r) = true /\
  master (g (final r)) = master (g st) /\
  (forall a, In a (heap (w st)) -> In a (heap (w (final r)))) /\
  live (global_data (g (final r))) st = false /\
  live (bfd_data (g (final r))) st = false /\
  live (bfd_buffer (w (final r))) st = false.
Proof.
  intros Hok Hready r.
  unfold loop_ready in Hready. apply andb_true_iff in Hready as [Hm Hbrk].
  destruct (master (g st)) as [m|] eqn:Em; [|discriminate].
  apply live_In in Hm.
  assert (Hlt : forall a, In a (heap (w st)) -> a < brk (w st)).
  { intros a Ha. rewrite forallb_forall in Hbrk. apply Z.ltb_lt. now apply Hbrk. }
  pose proof (Hlt _ Hm).
  unfold r, start_bfd. rewrite Hok.
  match goal with |- context [exit_status ?t] => run_of t end.
  rewrite Em.
  split; [reflexivity|]. split; [|split; [|split; [exact Em|split; [|repeat split]]]].
  - unfold start_bfd_events, events, __test_bit. rewrite Em. calc.
    split_ifs; reflexivity.
  - apply running_facts.
    exists m, (brk (w st)), (brk (w st) + 1), (brk (w st) + 1 + 1).
    cbn -[filter Z.eqb Z.add].
    repeat match goal with |- _ /\ _ => split end;
      try exact Em; try reflexivity; try lia; try (cbn [In]; now auto).
    intros a [<-|[<-|[<-|Ha]]]; try lia. apply Hlt in Ha. lia.
  - intros a Ha. cbn -[filter Z.eqb Z.add]. cbn [In]. auto.
  - apply live_false. intros Hin. apply Hlt in Hin. cbn in Hin. lia.
  - apply live_false. intros Hin. apply Hlt in Hin. cbn in Hin. lia.
  - apply live_false. intros Hin. apply Hlt in Hin. cbn in Hin. lia.
Qed.

Lemma start_bfd_brings_up_witness :
  alloc_bfd_data_ok sample_os = true /\
  loop_ready (sample_supervisor 0) = true /\
  running (sample_supervisor 0) = false /\
  running (final (start_bfd sample_cfg sample_os (sample_supervisor 0))) = true.
Proof.
  split; [reflexivity|]. split; [reflexivity|]. split; [reflexivity|].
  exact (proj1 (proj2 (proj2 (start_bfd_brings_up sample_cfg sample_os
                                (sample_supervisor 0) eq_refl eq_refl)))).
Defined.

(** * More on the stop sequence: [stop_bfd] *)


(** X6: in the stop sequence of a worker that is up, every block handed
    to a collaborator is live when the call is made: nothing is released
    twice and nothing is used after its release. *)
Theorem stop_bfd_uses_live_blocks (cfg : config) (status : Z) (st : proc) :
  running st = true ->
  uses_live st (trace (stop_bfd cfg status st)) = true.
Proof.
  intros Hrun.
  destruct (proj1 (running_facts st) Hrun)
    as (m & c & d & b & Em & Ec & Ed & Eb & Hm & Hc & Hd & Hb
        & Hmc & Hmd & Hmb & Hcd & Hcb & Hdb & Hbrk).
  run_of (stop_bfd cfg status st).
  cbn [trace]. rewrite ?Em, ?Ec, ?Ed, ?Eb.
  split_ifs; cbn [app].
  all: uses_live_walk ltac:(apply live_intro; in_heap Em Ec Ed Eb).
Qed.

Lemma stop_bfd_uses_live_blocks_witness :
  running sample_worker = true /\
  uses_live sample_worker (trace (stop_bfd sample_cfg 0 sample_worker)) = true.
Proof.
  split; [reflexivity|].
  exact (stop_bfd_uses_live_blocks sample_cfg 0 sample_worker eq_refl).
Defined.

(** * More on the reload: [reload_bfd_thread] *)

(** X7: when [alloc_bfd_data] returns NULL during a reload, the reload
    does not return: after the teardown of the previous run loop,
    configuration store and buffer, [start_bfd] runs the stop sequence
    and the process exits with [KEEPALIVED_EXIT_FATAL].  The stop
    sequence is handed NULL for the protocol-engine data; the previous
    one, kept in [old_bfd_data], is never passed to [free_bfd_data];
    [UNSET_RELOAD] is not reached, so the reloading flag is still set;
    the pidfile is removed. *)
Theorem reload_allocation_failure (cfg : config) (os : oracle) (st : proc) :
  alloc_bfd_data_ok os = false ->
  let r := reload_bfd_thread cfg os st in
  let b := brk (w st) in
  exit_status r = Some (KEEPALIVED_EXIT_FATAL cfg) /\
  returned r = None /\
  events r
  = reload_teardown_events os st
    ++ [e_srand; e_alloc_global_data (b + 1); e_alloc_bfd_data None]
    ++ stop_bfd_events cfg (KEEPALIVED_EXIT_FATAL cfg)
         (set_world (with_bfd_buffer None)
            (set_bfd_data None
               (set_global_data (Some (b + 1)) (set_master (Some b) st)))) /\
  filter is_free_bfd_data (events r) = [e_free_bfd_data None] /\
  old_bfd_data (g (final r)) = bfd_data (g st) /\
  existsb is_UNSET_RELOAD (events r) = false /\
  reload (g (final r)) = true /\
  pidfile (w (final r)) = None.
Proof.
  intros Hok r b. unfold r, b, reload_bfd_thread, start_bfd. rewrite Hok.
  match goal with |- context [exit_status ?t] => run_of t end.
  split; [reflexivity|]. split; [reflexivity|].
  split; [|split; [|split; [reflexivity|split; [|split; reflexivity]]]].
  - unfold stop_bfd_events, reload_teardown_events, events. calc.
    split_ifs; reflexivity.
  - unfold events. cbn [trace]. split_ifs; reflexivity.
  - unfold events. cbn [trace]. apply existsb_false_forallb.
    rewrite forallb_map. forallb_trace reflexivity.
Qed.

Lemma reload_allocation_failure_witness :
  alloc_bfd_data_ok sample_os_alloc_fails = false /\
  exit_status (reload_bfd_thread sample_cfg sample_os_alloc_fails sample_worker)
  = Some (KEEPALIVED_EXIT_FATAL sample_cfg) /\
  reload (g (final (reload_bfd_thread sample_cfg sample_os_alloc_fails
                      sample_worker))) = true.
Proof.
  split; [reflexivity|].
  pose proof (reload_allocation_failure sample_cfg sample_os_alloc_fails
                sample_worker eq_refl) as H.
  split; [exact (proj1 H)|].
  exact (proj1 (proj2 (proj2 (proj2 (proj2 (proj2 (proj2 H))))))).
Defined.

(** X8: when a reload of a running worker fails in [alloc_bfd_data], the
    process exits with the previous protocol-engine data still live: of
    the blocks that were live before the reload, exactly the previous run
    loop, configuration store and buffer have been released, and nothing
    allocated during the reload is left. *)
Theorem reload_allocation_failure_leaks (cfg : config) (os : oracle) (st : proc) :
  alloc_bfd_data_ok os = false ->
  running st = true ->
  let r := reload_bfd_thread cfg os st in
  live (old_bfd_data (g (final r))) (final r) = true /\
  (forall a, In a (heap (w (final r))) <->
             In a (heap (w st))
             /\ (Some a = bfd_data (g st) \/ is_runtime_block a st = false)).
Proof.
  intros Hok Hrun r.
  destruct (proj1 (running_facts st) Hrun)
    as (m & c & d & b & Em & Ec & Ed & Eb & Hm & Hc & Hd & Hb
        & Hmc & Hmd & Hmb & Hcd & Hcb & Hdb & Hbrk).
  pose proof (Hbrk _ Hm). pose proof (Hbrk _ Hc).
  pose proof (Hbrk _ Hd). pose proof (Hbrk _ Hb).
  unfold r, reload_bfd_thread, start_bfd. rewrite Hok.
  match goal with |- context [final ?t] => run_of t end.
  cbn [final]. unfold is_runtime_block, runtime_blocks.
  split.
  - cbn -[filter Z.eqb Z.add live]. rewrite Ed. apply live_intro.
    in_heap Em Ec Ed Eb.
  - intros a. cbn -[filter Z.eqb Z.add existsb]. rewrite ?Em, ?Ec, ?Ed, ?Eb.
    cbn [existsb].
    repeat (rewrite filter_In || cbn [In]).
    rewrite ?negb_true_iff, ?orb_false_iff, ?Z.eqb_neq.
    split.
    + intros Ha.
      repeat match goal with
             | H : _ /\ _ |- _ => destruct H
             | H : _ \/ _ |- _ => destruct H
             end; subst; try lia.
      split; [assumption|].
      destruct (Z.eq_dec a d); [left; congruence | right; repeat split; lia].
    + intros [Ha [Hs|Hn]].
      * injection Hs as <-. pose proof (Hbrk _ Ha). intuition lia.
      * pose proof (Hbrk _ Ha). intuition lia.
Qed.

Lemma reload_allocation_failure_leaks_witness :
  alloc_bfd_data_ok sample_os_alloc_fails = false /\
  running sample_worker = true /\
  live (Some 3)
    (final (reload_bfd_thread sample_cfg sample_os_alloc_fails sample_worker))
  = true.
Proof.
  split; [reflexivity|]. split; [reflexivity|].
  exact (proj1 (reload_allocation_failure_leaks sample_cfg sample_os_alloc_fails
                  sample_worker eq_refl eq_refl)).
Defined.

(** X9: a reload of a running worker whose [alloc_bfd_data] succeeds
    replaces the four blocks of the worker and touches nothing else: the
    live blocks afterwards are the four new ones (none of which was live
    before) and the blocks that were live before other than the four
    previous ones; the allocator handed out four addresses; the settings,
    the pidfile, [bfd_child], [prog_type], the syslog identifier and the
    event pipe are as they were.  [old_bfd_data] is left pointing at the
    released block. *)
Theorem reload_frame (cfg : config) (os : oracle) (st : proc) :
  alloc_bfd_data_ok os = true ->
  running st = true ->
  let st' := final (reload_bfd_thread cfg os st) in
  (forall a, In a (heap (w st')) <->
             is_runtime_block a st' = true \/
             (In a (heap (w st)) /\ is_runtime_block a st = false)) /\
  (forall a, is_runtime_block a st' = true -> In a (heap (w st)) -> False) /\
  brk (w st') = brk (w st) + 4 /\
  cf st' = cf st /\
  pidfile (w st') = pidfile (w st) /\
  bfd_child (g st') = bfd_child (g st) /\
  prog_type (g st') = prog_type (g st) /\
  bfd_syslog_ident (g st') = bfd_syslog_ident (g st) /\
  bfd_event_pipe (g st') = bfd_event_pipe (g st) /\
  old_bfd_data (g st') = bfd_data (g st) /\
  live (old_bfd_data (g st')) st' = false.
Proof.
  intros Hok Hrun st'.
  destruct (reload_final_frame cfg os st Hok)
    as (Hcf & Hpid & Hbrk' & Hblocks & Hold & _ & _ & Hch & Hpt & Hid & Hpipe).
  fold st' in Hcf, Hpid, Hbrk', Hblocks, Hold, Hch, Hpt, Hid, Hpipe.
  destruct (proj1 (running_facts st) Hrun)
    as (m & c & d & b & Em & Ec & Ed & Eb & Hm & Hc & Hd & Hb
        & Hmc & Hmd & Hmb & Hcd & Hcb & Hdb & Hbrk).
  pose proof (Hbrk _ Hm). pose proof (Hbrk _ Hc).
  pose proof (Hbrk _ Hd). pose proof (Hbrk _ Hb).
  assert (Hheap : forall a, In a (heap (w st')) <->
             (a = brk (w st) \/ a = brk (w st) + 1 \/ a = brk (w st) + 1 + 1
              \/ a = brk (w st) + 1 + 1 + 1) \/
             (In a (heap (w st)) /\ a <> m /\ a <> c /\ a <> d /\ a <> b)).
  { intros a. unfold st', reload_bfd_thread, start_bfd. rewrite Hok.
    match goal with |- context [final ?t] => run_of t end.
    cbn -[filter Z.eqb Z.add]. rewrite ?Em, ?Ec, ?Ed, ?Eb.
    repeat (rewrite filter_In || cbn [In]).
    rewrite ?negb_true_iff, ?Z.eqb_neq.
    split.
    - intros Ha.
      repeat match goal with
             | H : _ /\ _ |- _ => destruct H
             | H : _ \/ _ |- _ => destruct H
             end; subst; try lia; auto 10.
    - intros [Hn|(Ha & ? & ? & ? & ?)].
      + intuition lia.
      + pose proof (Hbrk _ Ha). intuition lia. }
  assert (Hnew : forall a, is_runtime_block a st' = true <->
             (a = brk (w st) \/ a = brk (w st) + 1 \/ a = brk (w st) + 1 + 1
              \/ a = brk (w st) + 1 + 1 + 1)).
  { intros a. unfold is_runtime_block. rewrite Hblocks. cbn [existsb].
    rewrite !orb_true_iff, !Z.eqb_eq. intuition discriminate. }
  assert (Hprev : forall a, is_runtime_block a st = false <->
             (a <> m /\ a <> c /\ a <> d /\ a <> b)).
  { intros a. unfold is_runtime_block, runtime_blocks. rewrite Em, Ec, Ed, Eb.
    cbn [existsb]. rewrite !orb_false_iff, !Z.eqb_neq. intuition. }
  split; [|split; [|split; [lia|repeat split; try assumption]]].
  - intros a. rewrite Hheap, Hnew, Hprev. reflexivity.
  - intros a Ha Hin. apply Hnew in Ha. apply Hbrk in Hin. lia.
  - rewrite Hold, Ed. apply live_false. rewrite Hheap.
    intros [Hn|(Ha & ? & ? & ? & ?)].
    + lia.
    + congruence.
Qed.

Lemma reload_frame_witness :
  alloc_bfd_data_ok sample_os = true /\
  running sample_worker = true /\
  brk (w (final (reload_bfd_thread sample_cfg sample_os sample_worker)))
  = brk (w sample_worker) + 4.
Proof.
  split; [reflexivity|]. split; [reflexivity|].
  exact (proj1 (proj2 (proj2 (reload_frame sample_cfg sample_os sample_worker
                                eq_refl eq_refl)))).
Defined.

(** X10: any number of reloads in a row, each with a successful
    [alloc_bfd_data], leaves a running worker running, with the same
    pidfile content and the same settings; each reload takes four fresh
    addresses.  After the last of them the reloading flag is clear, the
    run loop is the block allocated first in that reload, and the signal
    routing table holds the SIGCHLD handler on that run loop and nothing
    else. *)
Theorem reloads_keep_running (cfg : config) (oss : list oracle) (st : proc) :
  Forall (fun os => alloc_bfd_data_ok os = true) oss ->
  running st = true ->
  let st' := reloads cfg oss st in
  running st' = true /\
  pidfile (w st') = pidfile (w st) /\
  cf st' = cf st /\
  brk (w st') = brk (w st) + 4 * Z.of_nat (List.length oss) /\
  (oss <> [] ->
   reload (g st') = false /\
   master (g st') = Some (brk (w st') - 4) /\
   sigtab (w st')
   = [(SIGCHLD, Handler fn_thread_child_handler (master (g st')))]).
Proof.
  intros Hall. revert st. induction Hall as [|os oss Hok Hall IH]; intros st Hrun.
  - cbn [reloads List.length].
    split; [exact Hrun|]. split; [reflexivity|]. split; [reflexivity|].
    split; [lia|]. intros Hne. now destruct Hne.
  - cbn [reloads]. cbv zeta in IH |- *.
    pose proof (reload_ends_running cfg os st Hok Hrun) as Hrun1.
    destruct (reload_final_frame cfg os st Hok)
      as (Hcf & Hpid & Hbrk' & Hblocks & _ & Hrel & Hsig & _).
    destruct (IH _ Hrun1) as (Hr & Hp & Hc & Hb & Hne).
    split; [exact Hr|]. split; [congruence|]. split; [congruence|].
    split; [rewrite Hb, Hbrk'; cbn [List.length]; lia|].
    intros _. destruct oss as [|os' oss'].
    + cbn [reloads]. rewrite Hrel, Hsig.
      injection Hblocks as Hmas _. rewrite Hmas, Hbrk'.
      repeat split. f_equal. lia.
    + apply Hne. discriminate.
Qed.

Lemma reloads_keep_running_witness :
  Forall (fun os => alloc_bfd_data_ok os = true) [sample_os; sample_os] /\
  running sample_worker = true /\
  running (reloads sample_cfg [sample_os; sample_os] sample_worker) = true.
Proof.
  assert (H : Forall (fun os => alloc_bfd_data_ok os = true) [sample_os; sample_os])
    by (repeat constructor).
  split; [exact H|]. split; [reflexivity|].
  exact (proj1 (reloads_keep_running sample_cfg [sample_os; sample_os]
                  sample_worker H eq_refl)).
Defined.

(** X11: in a reload of a running worker, whether [alloc_bfd_data]
    succeeds or not, every block handed to a collaborator is live when
    the call is made: the previous blocks are each released once, the
    SIGCHLD handler and the dispatcher get the new run loop and the new
    protocol-engine data, and the previous protocol-engine data is still
    live when it is released at the end. *)
Theorem reload_uses_live_blocks (cfg : config) (os : oracle) (st : proc) :
  running st = true ->
  uses_live st (trace (reload_bfd_thread cfg os st)) = true.
Proof.
  intros Hrun.
  destruct (proj1 (running_facts st) Hrun)
    as (m & c & d & b & Em & Ec & Ed & Eb & Hm & Hc & Hd & Hb
        & Hmc & Hmd & Hmb & Hcd & Hcb & Hdb & Hbrk).
  pose proof (Hbrk _ Hm). pose proof (Hbrk _ Hc).
  pose proof (Hbrk _ Hd). pose proof (Hbrk _ Hb).
  run_of (reload_bfd_thread cfg os st).
  destruct (alloc_bfd_data_ok os); cbn [trace].
  all: rewrite ?Em, ?Ec, ?Ed, ?Eb.
  all: split_ifs; cbn [app].
  all: uses_live_walk ltac:(apply live_intro; in_heap Em Ec Ed Eb).
Qed.

Lemma reload_uses_live_blocks_witness :
  running sample_worker = true /\
  uses_live sample_worker
    (trace (reload_bfd_thread sample_cfg sample_os sample_worker)) = true.
Proof.
  split; [reflexivity|].
  exact (reload_uses_live_blocks sample_cfg sample_os sample_worker eq_refl).
Defined.

(** * More on the start of the worker: [start_bfd_child] *)

(** X12: the ways [start_bfd_child] ends.  It never runs off its end.
    It returns only in the supervisor (a build without [_DEBUG_], [fork]
    not returning 0): -1 when [fork] failed, 0 otherwise.  Everywhere
    else the process exits: with 0 when the pidfile cannot be written,
    with [KEEPALIVED_EXIT_FATAL] when [alloc_bfd_data] fails, and with
    [EXIT_SUCCESS] once the stop sequence has run after the scheduler. *)
Theorem start_bfd_child_outcomes (cfg : config) (os : oracle) (st : proc) :
  let r := start_bfd_child cfg os st in
  let supervisor := negb (_DEBUG_ cfg) && negb (fork_ret os =? 0) in
  falls_through r = false /\
  returned r
  = (if supervisor then Some (if fork_ret os <? 0 then -1 else 0) else None) /\
  exit_status r
  = (if supervisor then None
     else if negb (_DEBUG_ cfg) && negb (pidfile_write_ret os) then Some 0
     else if alloc_bfd_data_ok os then Some EXIT_SUCCESS
     else Some (KEEPALIVED_EXIT_FATAL cfg)).
Proof.
  intros r supervisor. unfold r, supervisor.
  run_of (start_bfd_child cfg os st).
  destruct (_DEBUG_ cfg); cbn [negb andb].
  2: destruct (fork_ret os <? 0) eqn:Elt;
     [ apply Z.ltb_lt in Elt; destruct (Z.eqb_spec (fork_ret os) 0); [lia|]
     | destruct (fork_ret os =? 0) eqn:Eeq ]; cbn [negb andb].
  all: split_result; repeat split; reflexivity.
Qed.

(** X13: in the supervisor, [start_bfd_child] makes the calls of
    [launch_events] and nothing else: it flushes the log file when there
    is one, forks, and either logs the fork error, or records the pid in
    [bfd_child], logs it and registers the watchdog for that pid with
    [RESPAWN_TIMER] on the run loop.  When [fork] fails no watchdog is
    registered and the process state is untouched; [bfd_child] is the
    only variable ever written. *)
Theorem start_bfd_child_in_supervisor (cfg : config) (os : oracle) (st : proc) :
  _DEBUG_ cfg = false ->
  fork_ret os <> 0 ->
  let r := start_bfd_child cfg os st in
  let pid := fork_ret os in
  events r = launch_events cfg pid st /\
  final r = (if pid <? 0 then st else set_bfd_child pid st) /\
  existsb is_thread_add_child (events r) = negb (pid <? 0).
Proof.
  intros Hd Hf r pid. unfold r, pid, start_bfd_child. rewrite Hd.
  apply Z.eqb_neq in Hf.
  match goal with |- context [events ?t] => run_of t end.
  rewrite Hf. unfold launch_events, events. cbn [negb].
  destruct (fork_ret os <? 0); cbn [trace final negb].
  all: split; [split_ifs; reflexivity | split; [reflexivity|]].
  all: rewrite ?map_app, ?existsb_app; split_ifs; reflexivity.
Qed.

Lemma start_bfd_child_in_supervisor_witness :
  _DEBUG_ sample_cfg = false /\
  fork_ret sample_os_parent <> 0 /\
  bfd_child (g (final (start_bfd_child sample_cfg sample_os_parent
                         (sample_supervisor 0)))) = 78.
Proof.
  split; [reflexivity|]. split; [cbn; lia|].
  rewrite (proj1 (proj2 (start_bfd_child_in_supervisor sample_cfg sample_os_parent
                           (sample_supervisor 0) eq_refl
                           ltac:(cbn; lia)))).
  reflexivity.
Defined.

(** X14: in the child of the fork, when the pidfile could be written and
    [alloc_bfd_data] succeeds, the worker is up at the moment
    [launch_scheduler] is called: run loop, configuration store,
    protocol-engine data and buffer are four different live blocks, the
    run loop being the one created after the fork; the pidfile holds the
    pid of the child; the routing table is the one of [bfd_signal_init];
    the reloading flag is clear; the process type is BFD; the settings
    are the ones inherited. *)
Theorem worker_up_when_scheduler_starts
  (cfg : config) (os : oracle) (st : proc) :
  _DEBUG_ cfg = false ->
  fork_ret os = 0 ->
  pidfile_write_ret os = true ->
  alloc_bfd_data_ok os = true ->
  forallb (fun a => a <? brk (w st)) (heap (w st)) = true ->
  let r := start_bfd_child cfg os st in
  exists s,
    state_at is_launch_scheduler (trace r) = Some s /\
    running s = true /\
    master (g s) = Some (brk (w st)) /\
    pidfile (w s) = Some (getpid_ret os) /\
    sigtab (w s) = bfd_signal_table /\
    reload (g s) = false /\
    prog_type (g s) = PROG_TYPE_BFD /\
    cf s = cf st.
Proof.
  intros Hd Hf Hp Hok Hbrk r.
  assert (Hlt : forall a, In a (heap (w st)) -> a < brk (w st)).
  { intros a Ha. rewrite forallb_forall in Hbrk. apply Z.ltb_lt. now apply Hbrk. }
  unfold r, start_bfd_child, start_bfd. rewrite Hd, Hf, Hp, Hok.
  match goal with |- context [trace ?t] => run_of t end.
  unfold state_at.
  split_trace; to_first_of is_launch_scheduler.
  all: eexists; split; [reflexivity|].
  all: cbn [snd].
  all: split; [|repeat split].
  all: apply running_facts.
  all: exists (brk (w st)), (brk (w st) + 1), (brk (w st) + 1 + 1),
         (brk (w st) + 1 + 1 + 1).
  all: cbn -[filter Z.eqb Z.add].
  all: repeat match goal with |- _ /\ _ => split end;
         try reflexivity; try lia.
  all: try (split_options; repeat (rewrite filter_In || cbn [In]); now auto 10).
  all: intros a; split_options; repeat (rewrite filter_In || cbn [In]);
       intros Ha;
       repeat match goal with
              | H : _ /\ _ |- _ => destruct H
              | H : _ \/ _ |- _ => destruct H
              end; subst; try lia;
       match goal with H : In a _ |- _ => apply Hlt in H end; lia.
Qed.

Lemma worker_up_when_scheduler_starts_witness :
  _DEBUG_ sample_cfg = false /\
  fork_ret sample_os = 0 /\
  pidfile_write_ret sample_os = true /\
  alloc_bfd_data_ok sample_os = true /\
  forallb (fun a => a <? brk (w (sample_supervisor 0)))
          (heap (w (sample_supervisor 0))) = true /\
  exists s,
    state_at is_launch_scheduler
      (trace (start_bfd_child sample_cfg sample_os (sample_supervisor 0)))
    = Some s /\
    running s = true.
Proof.
  repeat (split; [reflexivity|]).
  destruct (worker_up_when_scheduler_starts sample_cfg sample_os
              (sample_supervisor 0) eq_refl eq_refl eq_refl eq_refl eq_refl)
    as (s & H1 & H2 & _).
  exists s. split; [exact H1 | exact H2].
Defined.




(** X17: the syslog channel of the worker.  In the child of the fork
    [openlog] is called once, unless [NO_SYSLOG_BIT] is set, in which
    case it is not called at all.  [make_syslog_ident] is called exactly
    when an instance name or (in a build with network namespaces) a
    network namespace is configured; the identifier passed to [openlog]
    is its result, and [PROG_BFD] when it was not called or returned
    NULL.  [LOG_PID] is always among the options, [LOG_CONS] is added
    with [LOG_CONSOLE_BIT], and the facility is never [LOG_DAEMON], which
    is replaced by [LOG_LOCAL2]. *)
Theorem worker_syslog_channel (cfg : config) (os : oracle) (st : proc) :
  _DEBUG_ cfg = false ->
  fork_ret os = 0 ->
  let r := start_bfd_child cfg os st in
  let ident :=
    if name_configured cfg st
    then match make_syslog_ident_ret os with
         | Some s => s
         | None => PROG_BFD cfg
         end
    else PROG_BFD cfg in
  let option :=
    Z.lor LOG_PID (if __test_bit (LOG_CONSOLE_BIT cfg) (debug (cf st))
                   then LOG_CONS else 0) in
  let facility :=
    if log_facility (cf st) =? LOG_DAEMON then LOG_LOCAL2
    else log_facility (cf st) in
  collect openlog_args (trace r)
  = (if __test_bit (NO_SYSLOG_BIT cfg) (debug (cf st)) then []
     else [(ident, option, facility)]) /\
  filter is_make_syslog_ident (events r)
  = (if name_configured cfg st
     then [e_make_syslog_ident (PROG_BFD cfg) (make_syslog_ident_ret os)]
     else []) /\
  Forall (fun a => Z.testbit (snd (fst a)) 0 = true /\ snd a <> LOG_DAEMON)
         (collect openlog_args (trace r)).
Proof.
  intros Hd Hf r ident option facility.
  unfold r, ident, option, facility, name_configured, start_bfd_child, events.
  rewrite Hd, Hf, filter_collect.
  match goal with |- context [trace ?t] => run_of t end.
  split; [|split].
  - split_trace; collected.
    all: destruct (__test_bit (NO_SYSLOG_BIT cfg) (debug (cf st))); reflexivity.
  - split_trace; collected; reflexivity.
  - split_trace; collected.
    all: destruct (negb (__test_bit (NO_SYSLOG_BIT cfg) (debug (cf st))));
      constructor; [|constructor]; cbn [fst snd].
    all: split; [rewrite Z.lor_spec; reflexivity|].
    all: destruct (Z.eqb_spec (log_facility (cf st)) 24) as [E|E];
      [discriminate | exact E].
Qed.

Lemma worker_syslog_channel_witness :
  _DEBUG_ sample_cfg = false /\
  fork_ret sample_os = 0 /\
  log_facility (cf (sample_supervisor 0)) = LOG_DAEMON /\
  collect openlog_args
    (trace (start_bfd_child sample_cfg sample_os (sample_supervisor 0)))
  = [("Keepalived_bfd", LOG_PID, LOG_LOCAL2)].
Proof.
  split; [reflexivity|]. split; [reflexivity|]. split; [reflexivity|].
  rewrite (proj1 (worker_syslog_channel sample_cfg sample_os
                    (sample_supervisor 0) eq_refl eq_refl)).
  reflexivity.
Defined.

(** X18: failures of the set-up of the worker other than the pidfile are
    not fatal.  In the child of the fork, with the pidfile written: the
    warning "cannot raise priority" is logged exactly when the build has
    [BFD_SCHED_RT] and [sched_setscheduler] does not return 0, and
    "error chdir" exactly when [chdir] returns a negative value;
    [sched_setscheduler] is applied to pid 0, the calling process; in
    every case the run goes on to [launch_scheduler] (when
    [alloc_bfd_data] succeeds), and the exit status depends on
    [alloc_bfd_data] alone. *)
Theorem worker_setup_failures_not_fatal
  (cfg : config) (os : oracle) (st : proc) :
  _DEBUG_ cfg = false ->
  fork_ret os = 0 ->
  pidfile_write_ret os = true ->
  let r := start_bfd_child cfg os st in
  filter (is_log "BFD child process: cannot raise priority") (events r)
  = (if BFD_SCHED_RT cfg && negb (sched_setscheduler_ret os =? 0)
     then [e_log_message LOG_WARNING "BFD child process: cannot raise priority" []]
     else []) /\
  filter (is_log "BFD child process: error chdir") (events r)
  = (if chdir_ret os <? 0
     then [e_log_message LOG_INFO "BFD child process: error chdir" []]
     else []) /\
  collect sched_target (trace r) = (if BFD_SCHED_RT cfg then [0] else []) /\
  filter is_launch_scheduler (events r)
  = (if alloc_bfd_data_ok os then [e_launch_scheduler] else []) /\
  exit_status r
  = Some (if alloc_bfd_data_ok os then EXIT_SUCCESS else KEEPALIVED_EXIT_FATAL cfg).
Proof.
  intros Hd Hf Hp r. unfold r, start_bfd_child, events.
  rewrite Hd, Hf, Hp, !filter_collect.
  match goal with |- context [trace ?t] => run_of t end.
  split; [|split; [|split; [|split]]].
  - split_trace; collected.
    all: destruct (BFD_SCHED_RT cfg), (negb (sched_setscheduler_ret os =? 0));
      reflexivity.
  - split_trace; collected; reflexivity.
  - split_trace; collected; reflexivity.
  - split_trace; collected; reflexivity.
  - repeat match goal with
           | |- context [exit_status (if ?c then _ else _)] => destruct c
           end; reflexivity.
Qed.

Lemma worker_setup_failures_not_fatal_witness :
  _DEBUG_ sample_cfg = false /\
  fork_ret sample_os = 0 /\
  pidfile_write_ret sample_os = true /\
  exit_status (start_bfd_child sample_cfg sample_os (sample_supervisor 0))
  = Some EXIT_SUCCESS.
Proof.
  split; [reflexivity|]. split; [reflexivity|]. split; [reflexivity|].
  exact (proj2 (proj2 (proj2 (proj2
           (worker_setup_failures_not_fatal sample_cfg sample_os
              (sample_supervisor 0) eq_refl eq_refl eq_refl))))).
Defined.

(** X19: started in a process that has its run loop and no buffer,
    [start_bfd_child] hands its collaborators only live blocks, whichever
    way it goes: the watchdog of the supervisor is registered on the live
    run loop, the child destroys the inherited run loop once and works on
    the new one, and the stop sequence (after the scheduler, or after a
    failed [alloc_bfd_data]) releases each block once. *)
Theorem start_bfd_child_uses_live_blocks
  (cfg : config) (os : oracle) (st : proc) :
  loop_ready st = true ->
  bfd_buffer (w st) = None ->
  uses_live st (trace (start_bfd_child cfg os st)) = true.
Proof.
  intros Hready Eb.
  unfold loop_ready in Hready. apply andb_true_iff in Hready as [Hm Hbrk].
  destruct (master (g st)) as [m|] eqn:Em; [|discriminate].
  apply live_In in Hm.
  assert (Hlt : forall a, In a (heap (w st)) -> a < brk (w st)).
  { intros a Ha. rewrite forallb_forall in Hbrk. apply Z.ltb_lt. now apply Hbrk. }
  pose proof (Hlt _ Hm).
  run_of (start_bfd_child cfg os st).
  split_trace; rewrite ?Em, ?Eb.
  all: uses_live_walk
         ltac:(apply live_intro; cbn -[filter Z.eqb Z.add]; rewrite ?Em, ?Eb;
               repeat (rewrite filter_In || cbn [In]);
               rewrite ?negb_true_iff, ?Z.eqb_neq;
               solve [intuition (auto; lia)]).
Qed.

Lemma start_bfd_child_uses_live_blocks_witness :
  loop_ready (sample_supervisor 0) = true /\
  bfd_buffer (w (sample_supervisor 0)) = None /\
  uses_live (sample_supervisor 0)
    (trace (start_bfd_child sample_cfg sample_os (sample_supervisor 0))) = true.
Proof.
  split; [reflexivity|]. split; [reflexivity|].
  exact (start_bfd_child_uses_live_blocks sample_cfg sample_os
           (sample_supervisor 0) eq_refl eq_refl).
Defined.

(** * More on the watchdog: [bfd_respawn_thread] *)

(** X20: on a timeout tick ([THREAD_CHILD_TIMEOUT]) the watchdog does one
    thing: it registers itself again on the run loop for the same pid
    with [RESPAWN_TIMER], and returns 0.  It logs nothing, forks nothing
    and leaves the process state as it is, whatever [DONT_RESPAWN_BIT]
    says. *)
Theorem respawn_tick_rearms (cfg : config) (os : oracle)
  (thread : thread_t) (st : proc) :
  rearm_tick thread = true ->
  bfd_respawn_thread cfg os thread st
  = Returned 0 st
      [(e_thread_add_child (master (g st)) fn_bfd_respawn_thread
          (THREAD_CHILD_PID thread) (RESPAWN_TIMER cfg), st)].
Proof.
  intros H. unfold bfd_respawn_thread. unfold rearm_tick in H. rewrite H.
  match goal with |- ?t = _ => run_of t end. reflexivity.
Qed.

Lemma respawn_tick_rearms_witness :
  rearm_tick sample_tick = true /\
  events (bfd_respawn_thread sample_cfg sample_os_parent sample_tick
            (sample_supervisor 0))
  = [e_thread_add_child (Some 1) fn_bfd_respawn_thread 77 60000000].
Proof.
  split; [reflexivity|].
  rewrite (respawn_tick_rearms sample_cfg sample_os_parent sample_tick
             (sample_supervisor 0) eq_refl).
  reflexivity.
Defined.

(** X21: a respawn seen from the supervisor.  On the death of the worker
    with respawning enabled, the watchdog logs "died: Respawning" with
    the pid of the dead worker and then does what [start_bfd_child] does
    in the supervisor.  It returns 0 even when [fork] fails: the -1 of
    [start_bfd_child] is dropped, no watchdog is registered for a new
    worker, [bfd_child] keeps the pid of the dead one and SIGTERM is not
    raised. *)
Theorem respawn_in_supervisor (cfg : config) (os : oracle)
  (thread : thread_t) (st : proc) :
  _DEBUG_ cfg = false ->
  fork_ret os <> 0 ->
  rearm_tick thread = false ->
  respawn_enabled cfg st = true ->
  let r := bfd_respawn_thread cfg os thread st in
  let pid := fork_ret os in
  returned r = Some 0 /\
  events r
  = e_log_message LOG_ALERT "BFD child process(%d) died: Respawning"
      [THREAD_CHILD_PID thread]
    :: launch_events cfg pid st /\
  final r = (if pid <? 0 then st else set_bfd_child pid st) /\
  existsb is_thread_add_child (events r) = negb (pid <? 0) /\
  existsb is_raise_SIGTERM (events r) = false.
Proof.
  intros Hd Hf Htick Hpol r pid.
  unfold r, pid, bfd_respawn_thread, start_bfd_child.
  unfold rearm_tick in Htick. unfold respawn_enabled in Hpol.
  rewrite Hd, Htick. apply Z.eqb_neq in Hf.
  match goal with |- context [events ?t] => run_of t end.
  rewrite Hpol, Hf. unfold launch_events, events. cbn [negb].
  destruct (fork_ret os <? 0); cbn [trace final negb returned].
  all: split; [reflexivity|]; split; [split_ifs; reflexivity|];
       split; [reflexivity|]; split;
       cbn [map fst existsb]; rewrite ?map_app, ?existsb_app;
       split_ifs; reflexivity.
Qed.

Lemma respawn_in_supervisor_witness :
  _DEBUG_ sample_cfg = false /\
  fork_ret sample_os_parent <> 0 /\
  rearm_tick sample_death = false /\
  respawn_enabled sample_cfg (sample_supervisor 0) = true /\
  returned (bfd_respawn_thread sample_cfg sample_os_parent sample_death
              (sample_supervisor 0)) = Some 0.
Proof.
  split; [reflexivity|]. split; [cbn; lia|].
  split; [reflexivity|]. split; [reflexivity|].
  exact (proj1 (respawn_in_supervisor sample_cfg sample_os_parent sample_death
                  (sample_supervisor 0) eq_refl ltac:(cbn; lia)
                  eq_refl eq_refl)).
Defined.

(** X22: the ways [bfd_respawn_thread] ends.  It never runs off its end.
    Whenever it returns it returns 0: on a tick, when respawning is
    disabled, and after a respawn in the supervisor whatever
    [start_bfd_child] returned.  The process exits inside it exactly
    when a respawn is attempted and [start_bfd_child] exits (the run went
    on as the new worker), with the status of [start_bfd_child]. *)
Theorem bfd_respawn_thread_outcomes (cfg : config) (os : oracle)
  (thread : thread_t) (st : proc) :
  let r := bfd_respawn_thread cfg os thread st in
  let respawn := negb (rearm_tick thread) && respawn_enabled cfg st in
  falls_through r = false /\
  returned r
  = (if respawn
     then if negb (_DEBUG_ cfg) && negb (fork_ret os =? 0) then Some 0 else None
     else Some 0) /\
  exit_status r
  = (if respawn then exit_status (start_bfd_child cfg os st) else None).
Proof.
  intros r respawn. unfold r, respawn, rearm_tick, respawn_enabled.
  run_of (start_bfd_child cfg os st).
  run_of (bfd_respawn_thread cfg os thread st).
  destruct (thread_type_eqb (type thread) THREAD_CHILD_TIMEOUT); cbn [negb andb].
  1: repeat split; reflexivity.
  destruct (negb (__test_bit (DONT_RESPAWN_BIT cfg) (debug (cf st)))).
  2: repeat split; reflexivity.
  destruct (_DEBUG_ cfg); cbn [negb andb].
  2: destruct (fork_ret os <? 0) eqn:Elt;
     [ apply Z.ltb_lt in Elt; destruct (Z.eqb_spec (fork_ret os) 0); [lia|]
     | destruct (fork_ret os =? 0) eqn:Eeq ]; cbn [negb andb].
  all: split_result; repeat split; reflexivity.
Qed.
